(** * create_sow.py: the statement-of-work builder

    The script [create_sow.py] assembles one word-processing document by
    calling a document-object-model library (python-docx) and saves it under
    a fixed file name.  This development embeds the script as a program in a
    small state-and-exception monad over a model of the library's document
    object model, and proves the properties the specification states about
    it. *)

From Stdlib Require Import String Ascii List Arith NArith Bool Lia.
From stdpp Require Import base option list gmap strings.

Import ListNotations.
Local Open Scope string_scope.
Local Open Scope list_scope.

(** String concatenation, written apart from list concatenation. *)
Infix "+++" := String.append (right associativity, at level 60).

(** ** The document object model *)

(** Modelled from the spec: the objects of the document library
    (python-docx), which is not part of the repository.  Section 3 of the
    specification describes the document as the ordered rendering of
    headings, paragraphs of styled runs and tables of cells; section 6
    requires the library to be a faithful in-memory document object model.
    The records below are that model: a body of blocks, paragraphs of runs
    with tri-state style flags, tables of rows of cells. *)
Module Dom.

(** [WD_PARAGRAPH_ALIGNMENT]: the script only uses [LEFT]. *)
Inductive Alignment := AlignLeft | AlignCenter | AlignRight.

(** A run of text.  The library's [bold] and [italic] are tri-state:
    [None] (inherit, the state of a fresh run), [Some true], [Some false]. *)
Record Run := mkRun {
  run_text : string;
  run_bold : option bool;
  run_italic : option bool
}.

Record Paragraph := mkParagraph {
  par_style : option string;
  par_alignment : option Alignment;
  par_runs : list Run
}.

Record Cell := mkCell { cell_paragraphs : list Paragraph }.

Record Table := mkTable {
  tbl_style : option string;
  tbl_rows : list (list Cell)
}.

(** The body of a document is the ordered sequence of its block items. *)
Inductive Block :=
| BParagraph (p : Paragraph)
| BTable (t : Table).

Definition nl : string := String (ascii_of_nat 10) EmptyString.
Definition dq : string := String (ascii_of_nat 34) EmptyString.

Definition is_empty (s : string) : bool :=
  match s with EmptyString => true | _ => false end.

(** [paragraph.text]: the texts of the runs, concatenated. *)
Definition par_text (p : Paragraph) : string :=
  String.concat EmptyString (map run_text (par_runs p)).

(** [cell.text] (read): the texts of the paragraphs, joined by newlines. *)
Definition cell_text (c : Cell) : string :=
  String.concat nl (map par_text (cell_paragraphs c)).

(** *** Texts

    A string stands for the UTF-8 encoding of the Python text.  The library
    stores the text of a run through an XML library that refuses a text
    holding a NUL or another control character (any byte below 32 other
    than tab, line feed and carriage return) or the encoding of a surrogate
    or of one of the non-characters U+FFFE and U+FFFF. *)
Definition byte_ok (n : N) : bool :=
  ((n =? 9) || (n =? 10) || (n =? 13) || (32 <=? n))%N.

Definition forbidden3 (b0 b1 b2 : N) : bool :=
  (let next3 := b0 * 65536 + b1 * 256 + b2 in
   (next3 =? 15712190) || (next3 =? 15712191)
   || ((15573120 <=? next3) && (next3 <=? 15581119)))%N.

(** The check of one position: a byte below 128 must be a legal character,
    a byte from 128 on must not start a forbidden three-byte sequence. *)
Definition position_ok (c : ascii) (rest : string) : bool :=
  if (128 <=? N_of_ascii c)%N
  then match rest with
       | String c1 (String c2 _) =>
           negb (forbidden3 (N_of_ascii c) (N_of_ascii c1) (N_of_ascii c2))
       | _ => true
       end
  else byte_ok (N_of_ascii c).

Fixpoint xml_compatible (s : string) : bool :=
  match s with
  | EmptyString => true
  | String c rest => position_ok c rest && xml_compatible rest
  end.

Definition is_tab (c : ascii) : bool := (N_of_ascii c =? 9)%N.
Definition is_break (c : ascii) : bool :=
  ((N_of_ascii c =? 10) || (N_of_ascii c =? 13))%N.

Definition tab : string := String (ascii_of_nat 9) EmptyString.

(** The text a run reads back after a text was stored in it: a tab and a
    line feed come back as they are, a carriage return is stored as a line
    break and comes back as a line feed. *)
Fixpoint stored_text (s : string) : string :=
  match s with
  | EmptyString => EmptyString
  | String c rest =>
      if (N_of_ascii c =? 13)%N then nl +++ stored_text rest
      else String c (stored_text rest)
  end.

(** [run.text = text]: the text is cut at tabs and line ends; the pieces
    are stored one after the other, each piece passing the check above, each
    tab and line end stored as such.  [bfr] is the piece being collected and
    [acc] what the run holds so far.  The result is what the run holds in
    the end and whether every piece was accepted; at the first piece that
    is refused the run keeps what it held. *)
Fixpoint append_to_run (text bfr acc : string) : string * bool :=
  match text with
  | EmptyString =>
      if xml_compatible bfr then (acc +++ bfr, true) else (acc, false)
  | String c rest =>
      if is_tab c then
        if xml_compatible bfr
        then append_to_run rest EmptyString (acc +++ bfr +++ tab)
        else (acc, false)
      else if is_break c then
        if xml_compatible bfr
        then append_to_run rest EmptyString (acc +++ bfr +++ nl)
        else (acc, false)
      else append_to_run rest (bfr +++ String c EmptyString) acc
  end.

Definition set_text (text : string) : string * bool :=
  append_to_run text EmptyString EmptyString.

(** A cell of a freshly added table holds one empty paragraph. *)
Definition empty_paragraph : Paragraph := mkParagraph None None [].
Definition empty_cell : Cell := mkCell [empty_paragraph].

Definition new_table (rows cols : nat) : Table :=
  mkTable None (replicate rows (replicate cols empty_cell)).

(** A cell of one paragraph with one run that holds [text] and has no style
    flag: what a cell is after an assignment that stored [text] in it (also
    when the text is empty). *)
Definition cell_with_text (text : string) : Cell :=
  mkCell [mkParagraph None None [mkRun text None None]].

Definition digit_string (n : nat) : string :=
  String (ascii_of_nat (48 + n)) EmptyString.

(** [add_heading]: style ["Title"] at level 0, ["Heading n"] otherwise. *)
Definition heading_style (level : nat) : string :=
  if Nat.eqb level 0 then "Title" else "Heading " +++ digit_string level.

Definition table_cell (t : Table) (r c : nat) : option Cell :=
  row ← tbl_rows t !! r; row !! c.

Definition set_table_cell (t : Table) (r c : nat) (x : Cell) : Table :=
  mkTable (tbl_style t) (alter (fun row => <[c := x]> row) r (tbl_rows t)).

End Dom.
Import Dom.

(** ** The world outside the script: the file system *)

(** What a file holds: a completely written document, or the remains of a
    write that failed part-way. *)
Inductive FileContent :=
| Complete (body : list Block)
| Partial.

(** Modelled from the spec: what the environment does with an attempt to
    write a file (section 4.1 and section 7 of the specification): the write
    goes through; the file cannot be opened for writing (permissions, missing
    directory, invalid path); or the write starts and fails (disk full). *)
Inductive SaveOutcome := Written | OpenFails | WriteFails.

Record World := mkWorld {
  cwd : string;
  files : gmap string FileContent;
  outcome : string -> SaveOutcome
}.

(** A relative path names a file in the current directory. *)
Definition resolve (dir path : string) : string :=
  match path with
  | String "/" _ => path
  | _ => dir +++ "/" +++ path
  end.

(** ** Program state, exceptions and the monad *)

Inductive exn :=
| IndexError
| ValueError
| AttributeError
| IOError
| ConfigurationError.

Inductive result (A : Type) :=
| Ok (a : A)
| Raise (e : exn).
Arguments Ok {A} a.
Arguments Raise {A} e.

(** The calls the script makes on the library, in the order it makes them. *)
Inductive Call :=
| CNewDocument
| CAddHeading (text : string) (level : nat)
| CSetAlignment (p : nat) (a : Alignment)
| CAddParagraph (text : string) (style : option string)
| CAddRun (p : nat) (text : string)
| CSetRunBold (p r : nat) (b : bool)
| CSetRunItalic (p r : nat) (b : bool)
| CAddTable (t rows cols : nat)
| CSetTableStyle (t : nat) (style : string)
| CSetCellText (t r c : nat) (text : string)
| CSetCellRunBold (t r c pi ri : nat) (b : bool)
| CSave (path : string).

(** [st_body] is the body of the script's [document] object, [st_calls] the
    log of library calls, [st_world] the file system. *)
Record State := mkState {
  st_body : list Block;
  st_calls : list Call;
  st_world : World
}.

Definition M (A : Type) : Type := State -> result A * State.

Definition ret {A} (a : A) : M A := fun st => (Ok a, st).

Definition bind {A B} (m : M A) (k : A -> M B) : M B :=
  fun st =>
    match m st with
    | (Ok a, st') => k a st'
    | (Raise e, st') => (Raise e, st')
    end.

Definition raise {A} (e : exn) : M A := fun st => (Raise e, st).

Declare Scope sow_scope.
Delimit Scope sow_scope with sow.
Notation "x <- c ;; k" := (bind c (fun x => k))
  (at level 100, c at next level, k at level 200, right associativity) : sow_scope.
Notation "c ;; k" := (bind c (fun _ => k))
  (at level 100, k at level 200, right associativity) : sow_scope.
Local Open Scope sow_scope.

Definition get_body : M (list Block) := fun st => (Ok (st_body st), st).

Definition put_body (b : list Block) : M unit :=
  fun st => (Ok tt, mkState b (st_calls st) (st_world st)).

Definition log (c : Call) : M unit :=
  fun st => (Ok tt, mkState (st_body st) (st_calls st ++ [c]) (st_world st)).

Definition get_world : M World := fun st => (Ok (st_world st), st).

Definition put_world (w : World) : M unit :=
  fun st => (Ok tt, mkState (st_body st) (st_calls st) w).

(** ** The library, as the script uses it *)

(** Modelled from the spec: the primitives of the document library
    (python-docx), which is not part of the repository.  Section 6 of the
    specification lists them (new document, add heading, add paragraph with
    a handle for styled runs, add table with per-cell text and style setters,
    save) and requires them to behave as a faithful in-memory document
    object model flushed to disk by save.  The object a primitive returns is
    modelled by a handle: the position of the block in the body, and below
    it the indices of the row, cell, paragraph or run.  Indexing out of range
    raises [IndexError], as indexing does in Python; using a handle on a
    block of the wrong kind raises [AttributeError]. *)
Definition ParH : Type := nat.
Definition RunH : Type := (nat * nat)%type.
Definition TableH : Type := nat.
Definition RowH : Type := (nat * nat)%type.
Definition CellH : Type := (nat * nat * nat)%type.

(** Modelled from the spec: [Document()], a new document with an empty body. *)
Definition new_document : M unit :=
  log CNewDocument ;; put_body [].

(** The library appends the paragraph, then adds a run for a text that is
    not empty, then sets the style: when the text is refused, the paragraph
    stays in the body without the style, with the run and what it held. *)
Definition append_paragraph (text : string) (style : option string) : M ParH :=
  b <- get_body ;;
  if is_empty text then
    put_body (b ++ [BParagraph (mkParagraph style None [])]) ;;
    ret (length b)
  else if snd (set_text text) then
    put_body (b ++ [BParagraph (mkParagraph style None
                                  [mkRun (fst (set_text text)) None None])]) ;;
    ret (length b)
  else
    put_body (b ++ [BParagraph (mkParagraph None None
                                  [mkRun (fst (set_text text)) None None])]) ;;
    raise ValueError.

(** Modelled from the spec: [document.add_paragraph(text, style)] appends a
    paragraph, with one run if [text] is not empty, and returns it; a text
    the library refuses raises [ValueError]. *)
Definition add_paragraph (text : string) (style : option string) : M ParH :=
  log (CAddParagraph text style) ;;
  append_paragraph text style.

(** Modelled from the spec: [document.add_heading(text, level)] appends a
    paragraph in the heading style of [level]; levels above 9 are refused. *)
Definition add_heading (text : string) (level : nat) : M ParH :=
  log (CAddHeading text level) ;;
  if Nat.ltb 9 level then raise ValueError
  else append_paragraph text (Some (heading_style level)).

Definition get_paragraph (p : ParH) : M Paragraph :=
  b <- get_body ;;
  match b !! p with
  | Some (BParagraph x) => ret x
  | _ => raise AttributeError
  end.

Definition put_paragraph (p : ParH) (x : Paragraph) : M unit :=
  b <- get_body ;; put_body (<[p := BParagraph x]> b).

(** Modelled from the spec: [paragraph.alignment = a]. *)
Definition set_alignment (p : ParH) (a : Alignment) : M unit :=
  log (CSetAlignment p a) ;;
  x <- get_paragraph p ;;
  put_paragraph p (mkParagraph (par_style x) (Some a) (par_runs x)).

(** Modelled from the spec: [paragraph.add_run(text)] appends a run with no
    style flag set, stores the text in it and returns it; a text the library
    refuses raises [ValueError] and leaves the run with what it held. *)
Definition add_run (p : ParH) (text : string) : M RunH :=
  log (CAddRun p text) ;;
  x <- get_paragraph p ;;
  put_paragraph p (mkParagraph (par_style x) (par_alignment x)
                     (par_runs x ++ [mkRun (fst (set_text text)) None None])) ;;
  if snd (set_text text) then ret (p, length (par_runs x))
  else raise ValueError.

Definition update_run (h : RunH) (f : Run -> Run) : M unit :=
  x <- get_paragraph (fst h) ;;
  match par_runs x !! snd h with
  | Some _ =>
      put_paragraph (fst h) (mkParagraph (par_style x) (par_alignment x)
                               (alter f (snd h) (par_runs x)))
  | None => raise IndexError
  end.

(** Modelled from the spec: [run.bold = b]. *)
Definition set_run_bold (h : RunH) (b : bool) : M unit :=
  log (CSetRunBold (fst h) (snd h) b) ;;
  update_run h (fun r => mkRun (run_text r) (Some b) (run_italic r)).

(** Modelled from the spec: [run.italic = b]. *)
Definition set_run_italic (h : RunH) (b : bool) : M unit :=
  log (CSetRunItalic (fst h) (snd h) b) ;;
  update_run h (fun r => mkRun (run_text r) (run_bold r) (Some b)).

(** Modelled from the spec: [document.add_table(rows, cols)] appends a table
    of [rows] by [cols] empty cells, with no style, and returns it. *)
Definition add_table (rows cols : nat) : M TableH :=
  b <- get_body ;;
  log (CAddTable (length b) rows cols) ;;
  put_body (b ++ [BTable (new_table rows cols)]) ;;
  ret (length b).

Definition get_table (t : TableH) : M Table :=
  b <- get_body ;;
  match b !! t with
  | Some (BTable x) => ret x
  | _ => raise AttributeError
  end.

Definition put_table (t : TableH) (x : Table) : M unit :=
  b <- get_body ;; put_body (<[t := BTable x]> b).

(** Modelled from the spec: [table.style = style]. *)
Definition set_table_style (t : TableH) (style : string) : M unit :=
  log (CSetTableStyle t style) ;;
  x <- get_table t ;;
  put_table t (mkTable (Some style) (tbl_rows x)).

(** Modelled from the spec: [table.rows[i].cells]. *)
Definition row_cells (t : TableH) (i : nat) : M RowH :=
  x <- get_table t ;;
  match tbl_rows x !! i with
  | Some _ => ret (t, i)
  | None => raise IndexError
  end.

(** Modelled from the spec: [cells[j]]. *)
Definition cell_at (row : RowH) (j : nat) : M CellH :=
  x <- get_table (fst row) ;;
  match table_cell x (snd row) j with
  | Some _ => ret (fst row, snd row, j)
  | None => raise IndexError
  end.

Definition get_cell (c : CellH) : M Cell :=
  x <- get_table (fst (fst c)) ;;
  match table_cell x (snd (fst c)) (snd c) with
  | Some y => ret y
  | None => raise IndexError
  end.

Definition put_cell (c : CellH) (y : Cell) : M unit :=
  x <- get_table (fst (fst c)) ;;
  put_table (fst (fst c)) (set_table_cell x (snd (fst c)) (snd c) y).

(** Modelled from the spec: [cell.text = text] clears the cell, adds one
    paragraph with one run and stores the text in the run; a text the
    library refuses raises [ValueError] and leaves the cell with that run
    and what it held. *)
Definition set_cell_text (c : CellH) (text : string) : M unit :=
  log (CSetCellText (fst (fst c)) (snd (fst c)) (snd c) text) ;;
  _ <- get_cell c ;;
  put_cell c (cell_with_text (fst (set_text text))) ;;
  if snd (set_text text) then ret tt else raise ValueError.

(** Modelled from the spec: [cell.paragraphs[pi].runs[ri].bold = b]. *)
Definition set_cell_run_bold (c : CellH) (pi ri : nat) (b : bool) : M unit :=
  log (CSetCellRunBold (fst (fst c)) (snd (fst c)) (snd c) pi ri b) ;;
  y <- get_cell c ;;
  match cell_paragraphs y !! pi with
  | None => raise IndexError
  | Some p =>
      match par_runs p !! ri with
      | None => raise IndexError
      | Some r =>
          put_cell c (mkCell (<[pi := mkParagraph (par_style p) (par_alignment p)
                                  (<[ri := mkRun (run_text r) (Some b) (run_italic r)]>
                                     (par_runs p))]>
                                (cell_paragraphs y)))
      end
  end.

(** Modelled from the spec: [document.save(path)] writes the document to
    [path]; section 4.1 of the specification names the failures (file cannot
    be opened for writing, disk full, invalid path), all reported as
    [IOError]. *)
Definition save (path : string) : M unit :=
  log (CSave path) ;;
  b <- get_body ;;
  w <- get_world ;;
  match outcome w (resolve (cwd w) path) with
  | Written =>
      put_world (mkWorld (cwd w)
                   (<[resolve (cwd w) path := Complete b]> (files w)) (outcome w))
  | OpenFails => raise IOError
  | WriteFails =>
      put_world (mkWorld (cwd w)
                   (<[resolve (cwd w) path := Partial]> (files w)) (outcome w)) ;;
      raise IOError
  end.

(** ** Loops *)

(** [for x in l: body] *)
Fixpoint for_each {A B} (l : list A) (body : A -> M B) : M unit :=
  match l with
  | [] => ret tt
  | x :: rest => body x ;; for_each rest body
  end.

(** [for i, x in enumerate(l): body], counting from [i]. *)
Fixpoint for_enumerate_from {A} (i : nat) (l : list A)
    (body : nat -> A -> M unit) : M unit :=
  match l with
  | [] => ret tt
  | x :: rest => body i x ;; for_enumerate_from (S i) rest body
  end.

Definition for_enumerate {A} (l : list A) (body : nat -> A -> M unit) : M unit :=
  for_enumerate_from 0 l body.

(** ** The script *)

Module Sow.

(** [table.rows[i].cells[j].text = text] *)
Definition set_text_at (table : TableH) (i j : nat) (text : string) : M unit :=
  cells <- row_cells table i ;;
  c <- cell_at cells j ;;
  set_cell_text c text.

(** [table.rows[i].cells[j].paragraphs[0].runs[0].bold = True] *)
Definition set_bold_at (table : TableH) (i j : nat) : M unit :=
  cells <- row_cells table i ;;
  c <- cell_at cells j ;;
  set_cell_run_bold c 0 0 true.

(** Lines 49-57. *)
Definition data : list (string * string) :=
  [ ("Start date", "TBD");
    ("Deadline", "TBD");
    ("Project overview",
     "The goal of this project is to build a conversion-focused website for Edu-Explore to clearly present services (Career Counselling, Study Abroad, Training) and drive consultation bookings. We aim to revive the inactive domain edu-xplore.com and implement an automated booking flow.");
    ("Project scope",
     "In Scope:" +++ nl
     +++ "1. Setup of hosting for edu-xplore.com." +++ nl
     +++ "2. Design and development of Landing Page with conversion CTAs." +++ nl
     +++ "3. Integration of booking engine (Calendly/Google Meet) with Calendar sync." +++ nl
     +++ "4. Creation of service pages: Study Abroad (US, UK, Asia, etc.), Career Counselling, MAX ME Training." +++ nl
     +++ "5. Mobile responsive design." +++ nl +++ nl
     +++ "Not In Scope:" +++ nl
     +++ "1. Content writing (text to be provided by client)." +++ nl
     +++ "2. Purchase of third-party licenses (hosting, paid booking tools).");
    ("Project timeline",
     "High-level timeline to be confirmed upon booking tool selection and hosting finalization.");
    ("Project budget", "TBD");
    ("Risk, constraints, and assumptions",
     "Constraints: Hosting is currently expired and requires immediate renewal." +++ nl
     +++ "Assumptions: Client has access to GoDaddy account for DNS updates.") ].

(** Lines 59-63: the body of the loop over [enumerate(data)]. *)
Definition summary_row (summary_table : TableH) (i : nat)
    (kv : string * string) : M unit :=
  row <- row_cells summary_table i ;;
  c0 <- cell_at row 0 ;;
  set_cell_text c0 (fst kv) ;;
  c1 <- cell_at row 1 ;;
  set_cell_text c1 (snd kv) ;;
  c0' <- cell_at row 0 ;;
  set_cell_run_bold c0' 0 0 true.

(** Lines 69-74. *)
Definition phases_list : list string :=
  [ "Phase 1: Mobilization & Infrastructure";
    "Phase 2: Design & User Flow";
    "Phase 3: Development & Integration";
    "Phase 4: Launch & Handover" ].

(** Lines 76, 194 and 207: the body of the three bullet loops. *)
Definition bullet (text : string) : M ParH :=
  add_paragraph text (Some "List Bullet").

(** Line 86. *)
Definition m_headers : list string :=
  [ "Milestone"; "Description"; "Start date"; "Due date" ].

(** Lines 88 and 166: the body of the two header loops. *)
Definition header_cell (table : TableH) (i : nat) (h : string) : M unit :=
  set_text_at table 0 i h.

(** Lines 90-95. *)
Definition m_data : list (string * string * string * string) :=
  [ ("Phase 1", "Hosting setup & Tool selection", "TBD", "TBD");
    ("Phase 2", "Wireframes & Design Approval", "TBD", "TBD");
    ("Phase 3", "Functional Website Build", "TBD", "TBD");
    ("Phase 4", "Go-Live", "TBD", "TBD") ].

(** Lines 98-102 and 176-180: the body of the two loops filling the rows
    below the header row, [cells = table.rows[i+1].cells]. *)
Definition body_row (table : TableH) (i : nat)
    (x : string * string * string * string) : M unit :=
  let '(a, b, c, d) := x in
  cells <- row_cells table (i + 1) ;;
  c0 <- cell_at cells 0 ;; set_cell_text c0 a ;;
  c1 <- cell_at cells 1 ;; set_cell_text c1 b ;;
  c2 <- cell_at cells 2 ;; set_cell_text c2 c ;;
  c3 <- cell_at cells 3 ;; set_cell_text c3 d.

(** Line 164. *)
Definition b_headers : list string :=
  [ "Invoice"; "Milestone/phase"; "Amount"; "Due date" ].

(** Lines 168-173. *)
Definition b_data : list (string * string * string * string) :=
  [ ("1", "Project Initiation (Upfront)", "TBD", "TBD");
    ("2", "Design Sign-off", "TBD", "TBD");
    ("3", "Project Completion", "TBD", "TBD");
    ("Total", EmptyString, "TBD", EmptyString) ].

(** Lines 188-192. *)
Definition risks : list string :=
  [ "Risks: Delays in hosting renewal may push back the start date.";
    "Constraints: The domain edu-xplore.com is valid until 2027, but the site is currently inactive due to expired hosting.";
    "Assumptions: Edu-Explore will provide all necessary logos, images, and text content for the service pages." ].

(** Lines 202-205. *)
Definition reqs : list string :=
  [ "Access: Developer requires access to the GoDaddy domain management console.";
    "Certification Info: Client to provide specific details regarding the MAX ME Australian certification for the Training page." ].

(** Line 209. *)
Definition output_name : string := "Edu_Explore_Statement_of_Work.docx".

(** Lines 6-207: the construction of the document, everything but the final
    [save]. *)
Definition assemble : M unit :=
  new_document ;;
  (* Title *)
  title <- add_heading "Statement of work: Edu-Explore Website Build" 0 ;;
  set_alignment title AlignLeft ;;
  (* Metadata *)
  p <- add_paragraph EmptyString None ;;
  r <- add_run p "Version: " ;; set_run_bold r true ;;
  add_run p ("1.0" +++ nl) ;;
  r <- add_run p "Date: " ;; set_run_bold r true ;;
  add_run p ("January 14, 2026" +++ nl) ;;
  r <- add_run p "Author: " ;; set_run_bold r true ;;
  add_run p "Navaneetha Krishnan R" ;;
  (* 1. Project Information *)
  add_heading "Project information" 1 ;;
  table <- add_table 3 3 ;;
  set_table_style table "Table Grid" ;;
  hdr_cells <- row_cells table 0 ;;
  c <- cell_at hdr_cells 0 ;; set_cell_text c "Role" ;;
  c <- cell_at hdr_cells 1 ;; set_cell_text c "Name" ;;
  c <- cell_at hdr_cells 2 ;; set_cell_text c "Email and telephone" ;;
  row1 <- row_cells table 1 ;;
  c <- cell_at row1 0 ;; set_cell_text c "Client point of contact" ;;
  c <- cell_at row1 1 ;; set_cell_text c "Benita" ;;
  c <- cell_at row1 2 ;; set_cell_text c "[Client Email] [Client Phone]" ;;
  row2 <- row_cells table 2 ;;
  c <- cell_at row2 0 ;; set_cell_text c "Agency point of contact" ;;
  c <- cell_at row2 1 ;; set_cell_text c "Navaneetha Krishnan R" ;;
  c <- cell_at row2 2 ;; set_cell_text c "[Agency Email] [Agency Phone]" ;;
  (* 2. Project Summary *)
  add_heading "Project summary" 1 ;;
  summary_table <- add_table 7 2 ;;
  set_table_style summary_table "Table Grid" ;;
  for_enumerate data (summary_row summary_table) ;;
  (* 3. Project scope and process *)
  add_heading "Project scope and process" 1 ;;
  add_paragraph "We break the project into 4 key phases to minimize risk through clear checkpoints, reviews, and controls at the beginning and end of a phase." None ;;
  for_each phases_list bullet ;;
  (* 4. Project Milestones *)
  add_heading "Project milestones" 1 ;;
  p_italic <- add_paragraph EmptyString None ;;
  r <- add_run p_italic "Please see Project Plan for a detailed project schedule." ;;
  set_run_italic r true ;;
  milestone_table <- add_table 5 4 ;;
  set_table_style milestone_table "Table Grid" ;;
  for_enumerate m_headers (header_cell milestone_table) ;;
  for_enumerate m_data (body_row milestone_table) ;;
  (* 5. Project Phases Detail *)
  add_heading "Project phases" 1 ;;
  (* Phase 1 *)
  add_heading "Phase 1: Mobilization & Infrastructure" 2 ;;
  add_paragraph "Phase description: Finalizing the technical foundation and tools required for the build." None ;;
  p1_table <- add_table 3 2 ;;
  set_table_style p1_table "Table Grid" ;;
  set_text_at p1_table 0 0 "Deliverable / task" ;;
  set_text_at p1_table 0 1 "Description" ;;
  set_text_at p1_table 1 0 "Hosting Renewal" ;;
  set_text_at p1_table 1 1 "Assist client in renewing/purchasing hosting for edu-xplore.com." ;;
  set_text_at p1_table 2 0 "Tool Selection" ;;
  set_text_at p1_table 2 1 "Finalize decision between Calendly vs. Google Meet for booking flow." ;;
  (* Phase 2 *)
  add_heading "Phase 2: Design & User Flow" 2 ;;
  add_paragraph "Phase description: Defining the visual structure and user journey." None ;;
  p2_table <- add_table 3 2 ;;
  set_table_style p2_table "Table Grid" ;;
  set_text_at p2_table 0 0 "Deliverable / task" ;;
  set_text_at p2_table 0 1 "Description" ;;
  set_text_at p2_table 1 0 "Sitemap & Flow" ;;
  set_text_at p2_table 1 1 "Define navigation for Study Abroad, Counselling, and Training tabs." ;;
  set_text_at p2_table 2 0 "UI Mockups" ;;
  set_text_at p2_table 2 1
    ("Create visual mockups for the Landing Page with " +++ dq +++ "Learn More"
     +++ dq +++ ", " +++ dq +++ "Call Now" +++ dq +++ " CTAs.") ;;
  (* Phase 3 *)
  add_heading "Phase 3: Development & Integration" 2 ;;
  add_paragraph "Phase description: Building the actual website pages and connecting functional elements." None ;;
  p3_table <- add_table 4 2 ;;
  set_table_style p3_table "Table Grid" ;;
  set_text_at p3_table 0 0 "Deliverable / task" ;;
  set_text_at p3_table 0 1 "Description" ;;
  set_text_at p3_table 1 0 "Landing Page Build" ;;
  set_text_at p3_table 1 1 "Develop primary landing page focused on conversion." ;;
  set_text_at p3_table 2 0 "Booking Integration" ;;
  set_text_at p3_table 2 1 "Implement booking logic, calendar sync, and WhatsApp/Email notification triggers." ;;
  set_text_at p3_table 3 0 "Service Pages" ;;
  set_text_at p3_table 3 1 "Build dedicated pages for MAX ME partnership and Country-wise study programs." ;;
  (* Phase 4 *)
  add_heading "Phase 4: Launch & Handover" 2 ;;
  add_paragraph "Phase description: Final testing and deployment to the live server." None ;;
  p4_table <- add_table 3 2 ;;
  set_table_style p4_table "Table Grid" ;;
  set_text_at p4_table 0 0 "Deliverable / task" ;;
  set_text_at p4_table 0 1 "Description" ;;
  set_text_at p4_table 1 0 "Testing" ;;
  set_text_at p4_table 1 1 "Verify mobile responsiveness and booking flow functionality." ;;
  set_text_at p4_table 2 0 "Go-Live" ;;
  set_text_at p4_table 2 1 "Point domain DNS to new hosting and publish site." ;;
  (* 6. Budget *)
  add_heading "Project budget and billing schedule" 1 ;;
  p_budget <- add_paragraph EmptyString None ;;
  r <- add_run p_budget "If the project budget has been created, list the payments related to the project below." ;;
  set_run_italic r true ;;
  budget_table <- add_table 5 4 ;;
  set_table_style budget_table "Table Grid" ;;
  for_enumerate b_headers (header_cell budget_table) ;;
  for_enumerate b_data (body_row budget_table) ;;
  (* Bold the Total row *)
  set_bold_at budget_table 4 0 ;;
  set_bold_at budget_table 4 2 ;;
  (* 7. General risks *)
  add_heading "General risks, constraints, and assumptions" 1 ;;
  for_each risks bullet ;;
  (* 8. Change requests *)
  add_heading "Change requests" 1 ;;
  add_paragraph "Any changes to the approved scope (e.g., adding payment gateways, new pages not listed, or complex student portals) will be treated as a Change Request. These will be estimated separately and may incur additional costs and timeline extensions." None ;;
  (* 9. Other requirements *)
  add_heading "Other project requirements" 1 ;;
  for_each reqs bullet.

(** [create_document()], lines 5-209. *)
Definition create_document : M unit :=
  assemble ;;
  save output_name.

(** Running the script as a program (lines 211-212) in a world [w]: the
    result, and the world the run leaves behind. *)
Definition initial (w : World) : State := mkState [] [] w.

Definition main (w : World) : result unit * State := create_document (initial w).

End Sow.
Import Sow.

(** ** The outline, in the data model of the specification *)

Module Outline.

(** A run of a paragraph: text and the two style flags. *)
Record RunSpec := mkRunSpec {
  rs_text : string;
  rs_bold : bool;
  rs_italic : bool
}.

(** A table cell: a string and a bold flag for its first run. *)
Record CellSpec := mkCellSpec {
  cs_text : string;
  cs_bold : bool
}.

Inductive BlockSpec :=
| Paragraph (runs : list RunSpec)
| BulletItem (text : string)
| TableBlock (rows cols : nat) (cells : list (list CellSpec)).

Record Section := mkSection {
  sec_title : string;
  sec_level : nat;
  sec_blocks : list BlockSpec
}.

(** What a document shows, read top to bottom. *)
Inductive Item :=
| IHeading (title : string) (level : nat)
| IBlock (b : BlockSpec).

Definition section_items (s : Section) : list Item :=
  IHeading (sec_title s) (sec_level s) :: map IBlock (sec_blocks s).

Definition outline_items (o : list Section) : list Item :=
  concat (map section_items o).

Definition plain (text : string) : RunSpec := mkRunSpec text false false.
Definition bold (text : string) : RunSpec := mkRunSpec text true false.
Definition italic (text : string) : RunSpec := mkRunSpec text false true.
Definition cell (text : string) : CellSpec := mkCellSpec text false.
Definition bold_cell (text : string) : CellSpec := mkCellSpec text true.

Definition row4 (x : string * string * string * string) : list CellSpec :=
  let '(a, b, c, d) := x in [cell a; cell b; cell c; cell d].

(** The outline compiled into the script: its sections in the order of the
    source, each with the blocks the source adds under its heading. *)
Definition sow_outline : list Section :=
  [ mkSection "Statement of work: Edu-Explore Website Build" 0
      [ Paragraph [ bold "Version: "; plain ("1.0" +++ nl);
                    bold "Date: "; plain ("January 14, 2026" +++ nl);
                    bold "Author: "; plain "Navaneetha Krishnan R" ] ];
    mkSection "Project information" 1
      [ TableBlock 3 3
          [ [cell "Role"; cell "Name"; cell "Email and telephone"];
            [cell "Client point of contact"; cell "Benita";
             cell "[Client Email] [Client Phone]"];
            [cell "Agency point of contact"; cell "Navaneetha Krishnan R";
             cell "[Agency Email] [Agency Phone]"] ] ];
    mkSection "Project summary" 1
      [ TableBlock 7 2 (map (fun kv => [bold_cell (fst kv); cell (snd kv)]) data) ];
    mkSection "Project scope and process" 1
      (Paragraph [ plain "We break the project into 4 key phases to minimize risk through clear checkpoints, reviews, and controls at the beginning and end of a phase." ]
       :: map BulletItem phases_list);
    mkSection "Project milestones" 1
      [ Paragraph [ italic "Please see Project Plan for a detailed project schedule." ];
        TableBlock 5 4 (map cell m_headers :: map row4 m_data) ];
    mkSection "Project phases" 1 [];
    mkSection "Phase 1: Mobilization & Infrastructure" 2
      [ Paragraph [ plain "Phase description: Finalizing the technical foundation and tools required for the build." ];
        TableBlock 3 2
          [ [cell "Deliverable / task"; cell "Description"];
            [cell "Hosting Renewal";
             cell "Assist client in renewing/purchasing hosting for edu-xplore.com."];
            [cell "Tool Selection";
             cell "Finalize decision between Calendly vs. Google Meet for booking flow."] ] ];
    mkSection "Phase 2: Design & User Flow" 2
      [ Paragraph [ plain "Phase description: Defining the visual structure and user journey." ];
        TableBlock 3 2
          [ [cell "Deliverable / task"; cell "Description"];
            [cell "Sitemap & Flow";
             cell "Define navigation for Study Abroad, Counselling, and Training tabs."];
            [cell "UI Mockups";
             cell ("Create visual mockups for the Landing Page with " +++ dq
                   +++ "Learn More" +++ dq +++ ", " +++ dq +++ "Call Now" +++ dq
                   +++ " CTAs.")] ] ];
    mkSection "Phase 3: Development & Integration" 2
      [ Paragraph [ plain "Phase description: Building the actual website pages and connecting functional elements." ];
        TableBlock 4 2
          [ [cell "Deliverable / task"; cell "Description"];
            [cell "Landing Page Build";
             cell "Develop primary landing page focused on conversion."];
            [cell "Booking Integration";
             cell "Implement booking logic, calendar sync, and WhatsApp/Email notification triggers."];
            [cell "Service Pages";
             cell "Build dedicated pages for MAX ME partnership and Country-wise study programs."] ] ];
    mkSection "Phase 4: Launch & Handover" 2
      [ Paragraph [ plain "Phase description: Final testing and deployment to the live server." ];
        TableBlock 3 2
          [ [cell "Deliverable / task"; cell "Description"];
            [cell "Testing";
             cell "Verify mobile responsiveness and booking flow functionality."];
            [cell "Go-Live";
             cell "Point domain DNS to new hosting and publish site."] ] ];
    mkSection "Project budget and billing schedule" 1
      [ Paragraph [ italic "If the project budget has been created, list the payments related to the project below." ];
        TableBlock 5 4
          (map cell b_headers
           :: [ row4 ("1", "Project Initiation (Upfront)", "TBD", "TBD");
                row4 ("2", "Design Sign-off", "TBD", "TBD");
                row4 ("3", "Project Completion", "TBD", "TBD");
                [bold_cell "Total"; cell EmptyString; bold_cell "TBD";
                 cell EmptyString] ]) ];
    mkSection "General risks, constraints, and assumptions" 1
      (map BulletItem risks);
    mkSection "Change requests" 1
      [ Paragraph [ plain "Any changes to the approved scope (e.g., adding payment gateways, new pages not listed, or complex student portals) will be treated as a Change Request. These will be estimated separately and may incur additional costs and timeline extensions." ] ];
    mkSection "Other project requirements" 1
      (map BulletItem reqs) ].

(** *** Reading a document back *)

Definition flag_set (f : option bool) : bool :=
  match f with Some true => true | _ => false end.

Definition read_run (r : Run) : RunSpec :=
  mkRunSpec (run_text r) (flag_set (run_bold r)) (flag_set (run_italic r)).

(** The first run of the first paragraph of a cell, if there is one. *)
Definition first_run (c : Cell) : option Run :=
  p ← cell_paragraphs c !! 0; par_runs p !! 0.

Definition read_cell (c : Cell) : CellSpec :=
  mkCellSpec (cell_text c)
    (match first_run c with Some r => flag_set (run_bold r) | None => false end).

Definition read_table (t : Table) : BlockSpec :=
  TableBlock (length (tbl_rows t))
    (match tbl_rows t with row :: _ => length row | [] => 0 end)
    (map (map read_cell) (tbl_rows t)).

(** The level of a heading style: the inverse of [heading_style] on the
    levels 0 to 9 the library accepts. *)
Definition heading_level (style : string) : option nat :=
  find (fun l => String.eqb (heading_style l) style) (seq 0 10).

Definition read_block (b : Block) : option Item :=
  match b with
  | BTable t => Some (IBlock (read_table t))
  | BParagraph p =>
      match par_style p with
      | None => Some (IBlock (Paragraph (map read_run (par_runs p))))
      | Some s =>
          if String.eqb s "List Bullet"
          then Some (IBlock (BulletItem (par_text p)))
          else l ← heading_level s; Some (IHeading (par_text p) l)
      end
  end.

(** The items of a document body, top to bottom; [None] if a block is
    neither a heading, a paragraph, a bullet item nor a table. *)
Definition read_document (body : list Block) : option (list Item) :=
  mapM read_block body.

End Outline.
Import Outline.

(** ** Running the script *)

(** The file the script writes: [output_name] in the current directory. *)
Definition target (w : World) : string := resolve (cwd w) output_name.

(** The document the script has built, and the library calls it has made, by
    the time it returns or raises. *)
Definition built (w : World) : list Block := st_body (snd (main w)).
Definition calls_made (w : World) : list Call := st_calls (snd (main w)).
Definition world_after (w : World) : World := st_world (snd (main w)).

Definition blank_world : World := mkWorld EmptyString ∅ (fun _ => Written).

(** The state [assemble] ends in, evaluated once. *)
Definition assembled_body : list Block :=
  Eval vm_compute in st_body (snd (assemble (initial blank_world))).

Definition assembled_calls : list Call :=
  Eval vm_compute in st_calls (snd (assemble (initial blank_world))).

(** A state whose body holds the table [tb] at position [length b]. *)
Definition at_table (b : list Block) (tb : Table) (rest : list Block)
    (calls : list Call) (w : World) : State :=
  mkState (b ++ BTable tb :: rest) calls w.

(** ** Table shapes *)

(** A table of exactly [rows] rows, each of exactly [cols] cells. *)
Definition well_shaped (tb : Table) (rows cols : nat) : Prop :=
  length (tbl_rows tb) = rows /\ Forall (fun row => length row = cols) (tbl_rows tb).

(** The cell texts of a table, row by row. *)
Definition table_texts (tb : Table) : list (list string) :=
  map (map cell_text) (tbl_rows tb).

(** A cell holding [text] in one run with the bold flag set. *)
Definition bold_text_cell (text : string) : Cell :=
  mkCell [mkParagraph None None [mkRun text (Some true) None]].

(** ** Blocks and the calls that append them *)

(** What a library call appends to the body: a heading, a paragraph in some
    style, or a table of a declared shape. *)
Inductive Appended :=
| AHeading (text : string) (level : nat)
| AParagraph (style : option string)
| ATable (rows cols : nat).

Definition call_appends (c : Call) : option Appended :=
  match c with
  | CAddHeading text level => Some (AHeading text level)
  | CAddParagraph _ style => Some (AParagraph style)
  | CAddTable _ rows cols => Some (ATable rows cols)
  | _ => None
  end.

(** The same reading of a block of the body. *)
Definition block_appended (b : Block) : Appended :=
  match b with
  | BTable t =>
      ATable (length (tbl_rows t))
        (match tbl_rows t with row :: _ => length row | [] => 0 end)
  | BParagraph p =>
      match par_style p ≫= heading_level with
      | Some l => AHeading (par_text p) l
      | None => AParagraph (par_style p)
      end
  end.

(** ** Runs and their style flags *)

(** The runs of the outline in reading order: a heading or a bullet item is
    one unmarked run, a cell is one run carrying the cell's bold flag. *)
Definition block_runs (b : BlockSpec) : list RunSpec :=
  match b with
  | Paragraph runs => runs
  | BulletItem text => [plain text]
  | TableBlock _ _ cells =>
      concat (map (map (fun c => mkRunSpec (cs_text c) (cs_bold c) false)) cells)
  end.

Definition outline_runs (o : list Section) : list RunSpec :=
  concat (map (fun s => plain (sec_title s) :: concat (map block_runs (sec_blocks s))) o).

Definition cell_runs (c : Cell) : list Run :=
  concat (map par_runs (cell_paragraphs c)).

(** Every run of a document body in reading order. *)
Definition document_runs (body : list Block) : list Run :=
  concat (map (fun b =>
                 match b with
                 | BParagraph p => par_runs p
                 | BTable t => concat (map (fun row => concat (map cell_runs row))
                                         (tbl_rows t))
                 end) body).

(** The run [r] of the document renders the run [rs] of the outline: same
    text, and each style flag is set in [r] exactly when [rs] is marked. *)
Definition renders (rs : RunSpec) (r : Run) : Prop :=
  run_text r = rs_text rs
  /\ (rs_bold rs = true <-> run_bold r = Some true)
  /\ (rs_italic rs = true <-> run_italic r = Some true).

#[global] Instance renders_dec (rs : RunSpec) (r : Run) : Decision (renders rs r).
Proof. unfold renders. apply _. Defined.

(** ** Tables of a document and of the call log *)

Definition tables_of (body : list Block) : list Table :=
  omap (fun b => match b with BTable t => Some t | _ => None end) body.

#[global] Instance Alignment_eq_dec : EqDecision Alignment.
Proof. solve_decision. Defined.

#[global] Instance Call_eq_dec : EqDecision Call.
Proof. solve_decision. Defined.

(** The table blocks of an outline, in order: the declared numbers of rows
    and columns and the cells. *)
Definition outline_tables (o : list Section)
    : list (nat * nat * list (list CellSpec)) :=
  omap (fun b => match b with
                 | TableBlock rows cols cells => Some (rows, cols, cells)
                 | _ => None
                 end)
    (concat (map sec_blocks o)).

(** The tables the script has declared, in order: the handle the call
    returned and the numbers of rows and columns it was given. *)
Definition declared_tables (calls : list Call) : list (nat * nat * nat) :=
  omap (fun c => match c with
                 | CAddTable t rows cols => Some (t, rows, cols)
                 | _ => None
                 end) calls.

(** Every [add_table] call of the log is directly followed by the call that
    sets the style of that table to Table Grid. *)
Fixpoint styled_at_once (calls : list Call) : bool :=
  match calls with
  | [] => true
  | CAddTable t _ _ :: rest =>
      match rest with
      | CSetTableStyle t' style :: _ =>
          bool_decide (t' = t) && bool_decide (style = "Table Grid")
      | _ => false
      end && styled_at_once rest
  | _ :: rest => styled_at_once rest
  end.

(** The table that directly follows the heading [title]. *)
Fixpoint table_under (title : string) (body : list Block) : option Table :=
  match body with
  | [] => None
  | BParagraph p :: rest =>
      match rest with
      | BTable t :: _ =>
          if bool_decide (is_Some (par_style p ≫= heading_level))
             && bool_decide (par_text p = title)
          then Some t else table_under title rest
      | _ => table_under title rest
      end
  | BTable _ :: rest => table_under title rest
  end.

(** ** Sample worlds *)

(** An empty, writable directory [/work]. *)
Definition w0 : World := mkWorld "/work" ∅ (fun _ => Written).

(** The same directory when the disk is full. *)
Definition w_disk_full : World := mkWorld "/work" ∅ (fun _ => WriteFails).

(** Another empty, writable directory. *)
Definition w1 : World := mkWorld "/srv/out" ∅ (fun _ => Written).

(** ** Inputs of the specification's scenarios *)

(** Modelled from the spec: the outline of its first scenario, a title and
    one section holding a paragraph of two runs, the first of them bold.  It
    is an outline other than the one compiled into the script. *)
Definition scenario_outline : list Section :=
  [ mkSection "T" 0 [];
    mkSection "S1" 1 [ Paragraph [ bold "Start date"; plain "TBD" ] ] ].

(** A text the library refuses: it holds the character of code 0. *)
Definition refused_text : string := String "a" (String "000" "b").

(** Modelled from the spec: the texts of its role/name scenario, a table
    declared with 2 rows and 2 columns. *)
Definition scenario_texts : list (list string) :=
  [ ["Role"; "Name"]; ["Client"; "Benita"] ].

(** Lines 45-63 and 209 of the script, with the list [d] in place of the
    literal [data]: the summary table is declared with 7 rows and 2 columns,
    the loop populates it from [d], and the document is saved. *)
Definition summary_block (d : list (string * string)) : M unit :=
  new_document ;;
  add_heading "Project summary" 1 ;;
  summary_table <- add_table 7 2 ;;
  set_table_style summary_table "Table Grid" ;;
  for_enumerate d (summary_row summary_table) ;;
  save output_name.

(** A text the library accepts. *)
Definition text_ok (s : string) : Prop := xml_compatible s = true.

Definition pair_ok (kv : string * string) : Prop :=
  text_ok (fst kv) /\ text_ok (snd kv).

Definition row_ok (x : string * string * string * string) : Prop :=
  let '(a, b, c, e) := x in text_ok a /\ text_ok b /\ text_ok c /\ text_ok e.

(** The three loops by which the script populates a table from a list: the
    summary rows (line 59), a header row (lines 87 and 165), the rows below
    a header row (lines 97 and 175). *)
Inductive Population :=
| SummaryRows (d : list (string * string))
| HeaderRow (h : list string)
| BodyRows (d : list (string * string * string * string)).

Definition populate (table : TableH) (p : Population) : M unit :=
  match p with
  | SummaryRows d => for_enumerate d (summary_row table)
  | HeaderRow h => for_enumerate h (header_cell table)
  | BodyRows d => for_enumerate d (body_row table)
  end.

(** Every text of the list is one the library accepts. *)
Definition texts_ok (p : Population) : Prop :=
  match p with
  | SummaryRows d => Forall pair_ok d
  | HeaderRow h => Forall text_ok h
  | BodyRows d => Forall row_ok d
  end.

(** The population of a declared table followed by the save. *)
Definition populate_and_save (table : TableH) (p : Population) : M unit :=
  populate table p ;;
  save output_name.

(** The cells, as (row, column), that a population loop addresses. *)
Definition addressed (p : Population) : list (nat * nat) :=
  match p with
  | SummaryRows d => flat_map (fun i => [(i, 0); (i, 1)]) (seq 0 (length d))
  | HeaderRow h => map (fun i => (0, i)) (seq 0 (length h))
  | BodyRows d =>
      flat_map (fun i => [(i + 1, 0); (i + 1, 1); (i + 1, 2); (i + 1, 3)])
        (seq 0 (length d))
  end.

(** Every cell the loop addresses lies inside a table of [rows] by [cols]. *)
Definition within_bounds (p : Population) (rows cols : nat) : Prop :=
  Forall (fun rc => fst rc < rows /\ snd rc < cols) (addressed p).

(** In world [w], the body of the state holds at position [t] a table of
    [rows] by [cols]. *)
Definition holds_table (t : TableH) (rows cols : nat) (w : World) (st : State) : Prop :=
  exists b tb rest calls,
    st = at_table b tb rest calls w /\ length b = t /\ well_shaped tb rows cols.

(** The paths the script has asked the library to save to. *)
Definition saves (calls : list Call) : list string :=
  omap (fun c => match c with CSave path => Some path | _ => None end) calls.

(** ** Contents of populated tables *)

(** The texts of a tuple of [m_data] or [b_data], in the order of the
    columns they go to. *)
Definition row_texts (x : string * string * string * string) : list string :=
  let '(a, b, c, d) := x in [a; b; c; d].

(** The paragraph that [bullet] appends for an accepted [text]. *)
Definition bullet_paragraph (text : string) : Block :=
  BParagraph (mkParagraph (Some "List Bullet") None
                (if is_empty text then [] else [mkRun (stored_text text) None None])).

(** The state of the summary loop after the pairs [done]: the table, begun
    as [tb0], holds each pair of [done] in its row, and is as [tb0] was
    everywhere else. *)
Definition summary_inv (b rest : list Block) (w : World) (rows cols : nat)
    (tb0 : Table) (done : list (string * string)) (st : State) : Prop :=
  exists tb calls,
    st = at_table b tb rest calls w
    /\ well_shaped tb rows cols
    /\ tbl_style tb = tbl_style tb0
    /\ (forall k kv, done !! k = Some kv ->
          table_cell tb k 0 = Some (bold_text_cell (stored_text (fst kv)))
          /\ table_cell tb k 1 = Some (cell_with_text (stored_text (snd kv))))
    /\ (forall r c, length done <= r \/ 2 <= c ->
          table_cell tb r c = table_cell tb0 r c).

(** The state of a header loop after the headers [done]. *)
Definition header_inv (b rest : list Block) (w : World) (rows cols : nat)
    (tb0 : Table) (done : list string) (st : State) : Prop :=
  exists tb calls,
    st = at_table b tb rest calls w
    /\ well_shaped tb rows cols
    /\ tbl_style tb = tbl_style tb0
    /\ (forall k h, done !! k = Some h ->
          table_cell tb 0 k = Some (cell_with_text (stored_text h)))
    /\ (forall r c, 1 <= r \/ length done <= c ->
          table_cell tb r c = table_cell tb0 r c).

(** The state of a loop over the rows below the header after the tuples
    [done]. *)
Definition body_inv (b rest : list Block) (w : World) (rows cols : nat)
    (tb0 : Table) (done : list (string * string * string * string))
    (st : State) : Prop :=
  exists tb calls,
    st = at_table b tb rest calls w
    /\ well_shaped tb rows cols
    /\ tbl_style tb = tbl_style tb0
    /\ (forall k x j s, done !! k = Some x -> row_texts x !! j = Some s ->
          table_cell tb (k + 1) j = Some (cell_with_text (stored_text s)))
    /\ (forall r c, r = 0 \/ length done + 1 <= r \/ 4 <= c ->
          table_cell tb r c = table_cell tb0 r c).

(** Lines 46-63 of the script with the number of rows and the list as
    parameters (the script has 7 and [data]): the summary table is declared,
    styled and populated by the loop. *)
Definition summary_table_block (rows : nat) (d : list (string * string)) : M unit :=
  summary_table <- add_table rows 2 ;;
  set_table_style summary_table "Table Grid" ;;
  for_enumerate d (summary_row summary_table).

(** Lines 83-102 and 162-180 of the script with the number of rows and the
    two lists as parameters (the script has 5, [m_headers] and [m_data], then
    5, [b_headers] and [b_data]): a table of four columns is declared, styled
    and populated by the header loop and the loop over the rows. *)
Definition grid_table_block (rows : nat) (h : list string)
    (d : list (string * string * string * string)) : M unit :=
  table <- add_table rows 4 ;;
  set_table_style table "Table Grid" ;;
  for_enumerate h (header_cell table) ;;
  for_enumerate d (body_row table).

(** The cell that the assignment of an accepted [text] leaves: the text, as
    the library stores it, in one unmarked run. *)
Definition stored_cell (text : string) : Cell :=
  cell_with_text (stored_text text).

(** The two cells the summary loop leaves in the row of a pair. *)
Definition pair_cells (kv : string * string) : list Cell :=
  [bold_text_cell (stored_text (fst kv)); cell_with_text (stored_text (snd kv))].

(** The texts of the role/name table, as lines 28-42 assign them. *)
Definition role_name_texts : list (list string) :=
  [ ["Role"; "Name"; "Email and telephone"];
    ["Client point of contact"; "Benita"; "[Client Email] [Client Phone]"];
    ["Agency point of contact"; "Navaneetha Krishnan R";
     "[Agency Email] [Agency Phone]"] ].

(** * Properties *)

(** The construction touches nothing but the document and never raises. *)
Lemma assemble_run (w : World) :
  assemble (initial w) = (Ok tt, mkState assembled_body assembled_calls w).
Proof. vm_compute. reflexivity. Qed.

Lemma main_run (w : World) :
  main w = save output_name (mkState assembled_body assembled_calls w).
Proof.
  unfold main, create_document, bind. rewrite assemble_run. reflexivity.
Qed.

Lemma save_body (path : string) (st : State) :
  st_body (snd (save path st)) = st_body st.
Proof.
  unfold save, bind, log, get_body, get_world, put_world, raise. simpl.
  destruct (outcome (st_world st) (resolve (cwd (st_world st)) path)); reflexivity.
Qed.

Lemma save_calls (path : string) (st : State) :
  st_calls (snd (save path st)) = st_calls st ++ [CSave path].
Proof.
  unfold save, bind, log, get_body, get_world, put_world, raise. simpl.
  destruct (outcome (st_world st) (resolve (cwd (st_world st)) path)); reflexivity.
Qed.

Lemma built_eq (w : World) : built w = assembled_body.
Proof. unfold built. rewrite main_run, save_body. reflexivity. Qed.

Lemma calls_made_eq (w : World) :
  calls_made w = assembled_calls ++ [CSave output_name].
Proof. unfold calls_made. rewrite main_run, save_calls. reflexivity. Qed.

(** ** Order preservation *)

Lemma read_assembled :
  read_document assembled_body = Some (outline_items sow_outline).
Proof. vm_compute. reflexivity. Qed.

(** ** Texts the library accepts *)

Lemma string_app_cons (x : ascii) (a b : string) :
  String x a +++ b = String x (a +++ b).
Proof. reflexivity. Qed.

Lemma string_app_nil_l (b : string) : EmptyString +++ b = b.
Proof. reflexivity. Qed.

Lemma string_app_assoc (a b c : string) : (a +++ b) +++ c = a +++ b +++ c.
Proof.
  induction a as [| x a IH]; [reflexivity |].
  rewrite !string_app_cons, IH. reflexivity.
Qed.

Lemma string_app_nil_r (a : string) : a +++ EmptyString = a.
Proof.
  induction a as [| x a IH]; [reflexivity |].
  rewrite string_app_cons, IH. reflexivity.
Qed.

(** A text is accepted only if each of its parts is. *)
Lemma xml_compatible_prefix (a b : string) :
  xml_compatible (a +++ b) = true -> xml_compatible a = true.
Proof.
  induction a as [| c a IH]; [reflexivity |].
  rewrite string_app_cons. simpl.
  intros H. apply andb_prop in H as [Hpos Hrest].
  rewrite (IH Hrest), andb_true_r.
  unfold position_ok in *. destruct (128 <=? N_of_ascii c)%N; [| exact Hpos].
  destruct a as [| c1 [| c2 a]]; try reflexivity.
  rewrite !string_app_cons in Hpos. exact Hpos.
Qed.

Lemma xml_compatible_suffix (a b : string) :
  xml_compatible (a +++ b) = true -> xml_compatible b = true.
Proof.
  induction a as [| c a IH]; [tauto |].
  rewrite string_app_cons. simpl.
  intros H. apply andb_prop in H as [_ Hrest]. exact (IH Hrest).
Qed.

Lemma append_to_run_ok (text : string) : forall bfr acc,
  xml_compatible (bfr +++ text) = true ->
  append_to_run text bfr acc = (acc +++ bfr +++ stored_text text, true).
Proof.
  induction text as [| c text IH]; intros bfr acc H; simpl.
  - rewrite string_app_nil_r in H. rewrite H, string_app_nil_r. reflexivity.
  - pose proof (xml_compatible_prefix _ _ H) as Hbfr.
    pose proof (xml_compatible_suffix _ _ H) as Htext.
    simpl in Htext. apply andb_prop in Htext as [_ Htext].
    unfold is_tab, is_break.
    destruct (N_of_ascii c =? 9)%N eqn:Htab.
    + rewrite Hbfr, (IH EmptyString _ Htext).
      apply N.eqb_eq in Htab.
      assert (c = ascii_of_nat 9) as ->.
      { rewrite <- (ascii_N_embedding c), Htab. reflexivity. }
      simpl. unfold tab.
      rewrite ?string_app_assoc, ?string_app_cons, ?string_app_nil_l. reflexivity.
    + destruct (N_of_ascii c =? 10)%N eqn:Hlf; simpl.
      * rewrite Hbfr, (IH EmptyString _ Htext).
        apply N.eqb_eq in Hlf.
        assert (c = ascii_of_nat 10) as ->.
        { rewrite <- (ascii_N_embedding c), Hlf. reflexivity. }
        simpl. unfold nl.
        rewrite ?string_app_assoc, ?string_app_cons, ?string_app_nil_l. reflexivity.
      * destruct (N_of_ascii c =? 13)%N eqn:Hcr.
        -- rewrite Hbfr, (IH EmptyString _ Htext). unfold nl.
           rewrite ?string_app_assoc, ?string_app_cons, ?string_app_nil_l.
           reflexivity.
        -- rewrite IH by (rewrite string_app_assoc; exact H).
           rewrite ?string_app_assoc, ?string_app_cons, ?string_app_nil_l.
           reflexivity.
Qed.

(** Storing an accepted text succeeds, and the run reads back the text with
    its carriage returns turned into line feeds. *)
Lemma set_text_ok (text : string) :
  text_ok text -> set_text text = (stored_text text, true).
Proof.
  intros H. unfold set_text. rewrite append_to_run_ok; [reflexivity | exact H].
Qed.
(** ** The table primitives, step by step *)

Section TableSteps.

Variables (b rest : list Block) (calls : list Call) (w : World).

Lemma lookup_at (tb : Table) : (b ++ BTable tb :: rest) !! length b = Some (BTable tb).
Proof. apply list_lookup_middle. reflexivity. Qed.

Lemma insert_at (tb tb' : Table) :
  <[length b := BTable tb']> (b ++ BTable tb :: rest) = b ++ BTable tb' :: rest.
Proof.
  rewrite insert_app_r_alt by lia. rewrite Nat.sub_diag. reflexivity.
Qed.

Lemma add_table_run (rows cols : nat) :
  add_table rows cols (mkState b calls w)
  = (Ok (length b),
     at_table b (new_table rows cols) [] (calls ++ [CAddTable (length b) rows cols]) w).
Proof. reflexivity. Qed.

Lemma get_table_run (tb : Table) :
  get_table (length b) (at_table b tb rest calls w) = (Ok tb, at_table b tb rest calls w).
Proof.
  unfold get_table, bind, get_body, at_table. simpl. rewrite lookup_at. reflexivity.
Qed.

Lemma put_table_run (tb tb' : Table) :
  put_table (length b) tb' (at_table b tb rest calls w)
  = (Ok tt, at_table b tb' rest calls w).
Proof.
  unfold put_table, bind, get_body, put_body, at_table. simpl.
  rewrite insert_at. reflexivity.
Qed.

End TableSteps.

Lemma set_table_style_run b tb rest calls w (style : string) :
  set_table_style (length b) style (at_table b tb rest calls w)
  = (Ok tt, at_table b (mkTable (Some style) (tbl_rows tb)) rest
              (calls ++ [CSetTableStyle (length b) style]) w).
Proof.
  unfold set_table_style, bind, log.
  change (mkState (st_body (at_table b tb rest calls w)) ?c ?v)
    with (at_table b tb rest c w).
  rewrite get_table_run, put_table_run. reflexivity.
Qed.

Lemma row_cells_run b tb rest calls w (i : nat) :
  row_cells (length b) i (at_table b tb rest calls w)
  = (match tbl_rows tb !! i with
     | Some _ => Ok (length b, i)
     | None => Raise IndexError
     end, at_table b tb rest calls w).
Proof.
  unfold row_cells, bind. rewrite get_table_run.
  destruct (tbl_rows tb !! i); reflexivity.
Qed.

Lemma cell_at_run b tb rest calls w (i j : nat) :
  cell_at (length b, i) j (at_table b tb rest calls w)
  = (match table_cell tb i j with
     | Some _ => Ok (length b, i, j)
     | None => Raise IndexError
     end, at_table b tb rest calls w).
Proof.
  unfold cell_at, bind. simpl. rewrite get_table_run.
  destruct (table_cell tb i j); reflexivity.
Qed.

Lemma set_cell_text_run b tb rest calls w (i j : nat) (text : string) :
  text_ok text ->
  set_cell_text (length b, i, j) text (at_table b tb rest calls w)
  = match table_cell tb i j with
    | Some _ =>
        (Ok tt, at_table b (set_table_cell tb i j (cell_with_text (stored_text text)))
                  rest (calls ++ [CSetCellText (length b) i j text]) w)
    | None =>
        (Raise IndexError,
         at_table b tb rest (calls ++ [CSetCellText (length b) i j text]) w)
    end.
Proof.
  intros Hok.
  unfold set_cell_text, get_cell, put_cell, bind, log. cbn [fst snd].
  rewrite (set_text_ok text Hok). cbn [fst snd].
  change (mkState (st_body (at_table b tb rest calls w)) ?c ?v)
    with (at_table b tb rest c w).
  rewrite get_table_run.
  destruct (table_cell tb i j); unfold ret, raise; [| reflexivity].
  rewrite get_table_run, put_table_run. reflexivity.
Qed.

Lemma set_cell_run_bold_run b tb rest calls w (i j pi ri : nat) (v : bool) :
  set_cell_run_bold (length b, i, j) pi ri v (at_table b tb rest calls w)
  = match table_cell tb i j with
    | Some y =>
        match cell_paragraphs y !! pi with
        | Some p =>
            match par_runs p !! ri with
            | Some r =>
                (Ok tt,
                 at_table b
                   (set_table_cell tb i j
                      (mkCell (<[pi := mkParagraph (par_style p) (par_alignment p)
                                  (<[ri := mkRun (run_text r) (Some v) (run_italic r)]>
                                     (par_runs p))]>
                                (cell_paragraphs y))))
                   rest (calls ++ [CSetCellRunBold (length b) i j pi ri v]) w)
            | None =>
                (Raise IndexError,
                 at_table b tb rest (calls ++ [CSetCellRunBold (length b) i j pi ri v]) w)
            end
        | None =>
            (Raise IndexError,
             at_table b tb rest (calls ++ [CSetCellRunBold (length b) i j pi ri v]) w)
        end
    | None =>
        (Raise IndexError,
         at_table b tb rest (calls ++ [CSetCellRunBold (length b) i j pi ri v]) w)
    end.
Proof.
  unfold set_cell_run_bold, get_cell, put_cell, bind, log. cbn [fst snd].
  change (mkState (st_body (at_table b tb rest calls w)) ?c ?v')
    with (at_table b tb rest c w).
  rewrite get_table_run.
  destruct (table_cell tb i j) as [y|]; unfold ret, raise; [| reflexivity].
  destruct (cell_paragraphs y !! pi) as [p|]; [| reflexivity].
  destruct (par_runs p !! ri) as [r|]; [| reflexivity].
  rewrite get_table_run, put_table_run. reflexivity.
Qed.

(** ** Shapes are kept by cell updates *)

Lemma new_table_shape (rows cols : nat) : well_shaped (new_table rows cols) rows cols.
Proof.
  split; simpl.
  - apply length_replicate.
  - apply Forall_forall. intros row Hrow.
    apply elem_of_replicate in Hrow as [-> _]. apply length_replicate.
Qed.

Lemma set_table_cell_shape tb rows cols i j x :
  well_shaped tb rows cols -> well_shaped (set_table_cell tb i j x) rows cols.
Proof.
  intros [Hlen Hall]. split; simpl.
  - rewrite length_alter. exact Hlen.
  - apply Forall_alter; [exact Hall |].
    intros row _ Hrow. rewrite length_insert. exact Hrow.
Qed.

Lemma table_cell_inside tb rows cols i j :
  well_shaped tb rows cols -> i < rows -> j < cols -> is_Some (table_cell tb i j).
Proof.
  intros [Hlen Hall] Hi Hj. unfold table_cell.
  destruct (lookup_lt_is_Some_2 (tbl_rows tb) i) as [row Hrow]; [lia |].
  rewrite Hrow. simpl. apply lookup_lt_is_Some_2.
  rewrite (Forall_lookup_1 _ _ _ _ Hall Hrow). exact Hj.
Qed.

Lemma row_inside tb rows cols i :
  well_shaped tb rows cols -> i < rows -> is_Some (tbl_rows tb !! i).
Proof. intros [Hlen _] Hi. apply lookup_lt_is_Some_2. lia. Qed.

Lemma row_outside tb rows cols i :
  well_shaped tb rows cols -> rows <= i -> tbl_rows tb !! i = None.
Proof. intros [Hlen _] Hi. apply lookup_ge_None_2. lia. Qed.

Lemma table_cell_set_eq tb i j x :
  is_Some (table_cell tb i j) -> table_cell (set_table_cell tb i j x) i j = Some x.
Proof.
  unfold table_cell, set_table_cell. simpl. intros [c Hc].
  rewrite list_lookup_alter_eq.
  destruct (tbl_rows tb !! i) as [row|]; simpl in *; [| discriminate].
  apply list_lookup_insert_eq. eapply lookup_lt_Some. exact Hc.
Qed.

Lemma table_cell_set_ne tb i j x i' j' :
  (i, j) <> (i', j') ->
  table_cell (set_table_cell tb i j x) i' j' = table_cell tb i' j'.
Proof.
  unfold table_cell, set_table_cell. simpl. intros Hne.
  destruct (decide (i = i')) as [<- | Hi].
  - rewrite list_lookup_alter_eq.
    destruct (tbl_rows tb !! i) as [row|]; simpl; [| reflexivity].
    apply list_lookup_insert_ne. congruence.
  - rewrite list_lookup_alter_ne by exact Hi. reflexivity.
Qed.

Lemma table_cell_outside tb rows cols i j :
  well_shaped tb rows cols -> rows <= i \/ cols <= j -> table_cell tb i j = None.
Proof.
  intros [Hlen Hall] Hout. unfold table_cell.
  destruct (tbl_rows tb !! i) as [row |] eqn:Hrow; [| reflexivity]. simpl.
  apply lookup_ge_None_2.
  rewrite (Forall_lookup_1 _ _ _ _ Hall Hrow).
  apply lookup_lt_Some in Hrow. lia.
Qed.

Lemma new_table_cell (rows cols i j : nat) :
  i < rows -> j < cols -> table_cell (new_table rows cols) i j = Some empty_cell.
Proof.
  intros Hi Hj. unfold table_cell, new_table. simpl.
  rewrite lookup_replicate_2 by exact Hi. simpl.
  apply lookup_replicate_2. exact Hj.
Qed.

Lemma set_table_cell_twice (tb : Table) (i j : nat) (x y : Cell) :
  set_table_cell (set_table_cell tb i j x) i j y = set_table_cell tb i j y.
Proof.
  unfold set_table_cell. simpl. f_equal.
  rewrite list_alter_alter_eq. apply list_alter_ext; [| reflexivity].
  intros row _. simpl. apply list_insert_insert_eq.
Qed.

(** A state with a table at [t] is of the form [at_table]. *)
Lemma state_split (st : State) (t : TableH) (tb : Table) :
  st_body st !! t = Some (BTable tb) ->
  exists b rest,
    length b = t
    /\ st = at_table b tb rest (st_calls st) (st_world st)
    /\ forall tb', <[t := BTable tb']> (st_body st) = b ++ BTable tb' :: rest.
Proof.
  intros Ht. exists (take t (st_body st)), (drop (S t) (st_body st)).
  assert (Hlen : length (take t (st_body st)) = t).
  { apply length_take_le. apply lookup_lt_Some in Ht. lia. }
  split; [exact Hlen |]. split.
  - unfold at_table. rewrite (take_drop_middle _ _ _ Ht). destruct st; reflexivity.
  - intros tb'. rewrite <- (take_drop_middle _ _ _ Ht) at 1.
    rewrite <- Hlen at 1. apply insert_at.
Qed.

(** ** Assignments *)

Section Assignments.

Variables (b rest : list Block) (w : World) (rows cols : nat).

(** [cells[j].text = text] followed by the rest of the loop body: the
    assignment of an accepted text goes through when column [j] exists, and
    raises otherwise. *)
Lemma assign_run {B} (K : M B) tb calls i j text :
  well_shaped tb rows cols -> i < rows -> text_ok text ->
  bind (cell_at (length b, i) j)
    (fun c => bind (set_cell_text c text) (fun _ => K))
    (at_table b tb rest calls w)
  = if decide (j < cols)
    then K (at_table b (set_table_cell tb i j (cell_with_text (stored_text text))) rest
              (calls ++ [CSetCellText (length b) i j text]) w)
    else (Raise IndexError, at_table b tb rest calls w).
Proof.
  intros Hshape Hi Hok. unfold bind at 1. rewrite cell_at_run. case_decide.
  - destruct (table_cell_inside tb rows cols i j Hshape Hi ltac:(lia)) as [c Hc].
    rewrite Hc. unfold bind at 1. rewrite (set_cell_text_run _ _ _ _ _ _ _ _ Hok), Hc.
    reflexivity.
  - rewrite (table_cell_outside tb rows cols i j Hshape) by lia. reflexivity.
Qed.

(** The same for the last assignment of a loop body. *)
Lemma assign_last_run tb calls i j text :
  well_shaped tb rows cols -> i < rows -> text_ok text ->
  bind (cell_at (length b, i) j) (fun c => set_cell_text c text)
    (at_table b tb rest calls w)
  = if decide (j < cols)
    then (Ok tt, at_table b (set_table_cell tb i j (cell_with_text (stored_text text)))
                   rest (calls ++ [CSetCellText (length b) i j text]) w)
    else (Raise IndexError, at_table b tb rest calls w).
Proof.
  intros Hshape Hi Hok. unfold bind at 1. rewrite cell_at_run. case_decide.
  - destruct (table_cell_inside tb rows cols i j Hshape Hi ltac:(lia)) as [c Hc].
    rewrite Hc. rewrite (set_cell_text_run _ _ _ _ _ _ _ _ Hok), Hc. reflexivity.
  - rewrite (table_cell_outside tb rows cols i j Hshape) by lia. reflexivity.
Qed.

End Assignments.

(** The side conditions of [assign_run]: the row exists, the text is
    accepted, and the table has kept its shape through the assignments made
    so far. *)
Ltac shape_side :=
  first [ assumption | repeat apply set_table_cell_shape; assumption ].

(** ** What one iteration writes *)

Section Effects.

Variables (b rest : list Block) (w : World) (rows cols : nat).

Lemma summary_row_effect tb calls i kv :
  well_shaped tb rows cols -> 2 <= cols -> i < rows -> pair_ok kv ->
  exists tb' calls',
    summary_row (length b) i kv (at_table b tb rest calls w)
    = (Ok tt, at_table b tb' rest calls' w)
    /\ well_shaped tb' rows cols
    /\ tbl_style tb' = tbl_style tb
    /\ table_cell tb' i 0 = Some (bold_text_cell (stored_text (fst kv)))
    /\ table_cell tb' i 1 = Some (cell_with_text (stored_text (snd kv)))
    /\ (forall r c, (r, c) <> (i, 0) -> (r, c) <> (i, 1) ->
          table_cell tb' r c = table_cell tb r c).
Proof.
  intros Hshape Hcols Hi [Hkey Hvalue].
  destruct (row_inside _ _ _ _ Hshape Hi) as [row Hrow].
  pose proof (table_cell_inside tb rows cols i 0 Hshape Hi ltac:(lia)) as H0.
  set (tb1 := set_table_cell tb i 0 (cell_with_text (stored_text (fst kv)))).
  assert (Hshape1 : well_shaped tb1 rows cols) by (apply set_table_cell_shape; exact Hshape).
  pose proof (table_cell_inside tb1 rows cols i 1 Hshape1 Hi ltac:(lia)) as H1.
  set (tb2 := set_table_cell tb1 i 1 (cell_with_text (stored_text (snd kv)))).
  assert (Hshape2 : well_shaped tb2 rows cols) by (apply set_table_cell_shape; exact Hshape1).
  assert (H2 : table_cell tb2 i 0 = Some (cell_with_text (stored_text (fst kv)))).
  { unfold tb2. rewrite table_cell_set_ne by congruence.
    unfold tb1. apply table_cell_set_eq. exact H0. }
  set (tb3 := set_table_cell tb2 i 0 (bold_text_cell (stored_text (fst kv)))).
  exists tb3, (calls ++ [CSetCellText (length b) i 0 (fst kv)]
                     ++ [CSetCellText (length b) i 1 (snd kv)]
                     ++ [CSetCellRunBold (length b) i 0 0 0 true]).
  split; [| split; [| split; [| split; [| split]]]].
  - unfold summary_row.
    unfold bind at 1. rewrite row_cells_run, Hrow.
    rewrite (assign_run b rest w rows cols) by shape_side.
    case_decide; [| lia]. fold tb1.
    rewrite (assign_run b rest w rows cols) by shape_side.
    case_decide; [| lia]. fold tb2.
    unfold bind at 1. rewrite cell_at_run, H2.
    rewrite set_cell_run_bold_run, H2.
    cbn [cell_with_text cell_paragraphs par_runs par_style par_alignment
         run_text run_italic lookup list_lookup insert list_insert].
    fold (bold_text_cell (stored_text (fst kv))). fold tb3.
    rewrite <- !app_assoc. reflexivity.
  - apply set_table_cell_shape. exact Hshape2.
  - reflexivity.
  - unfold tb3. apply table_cell_set_eq. rewrite H2. eexists; reflexivity.
  - unfold tb3. rewrite table_cell_set_ne by congruence.
    unfold tb2. apply table_cell_set_eq. exact H1.
  - intros r c Hne0 Hne1. unfold tb3, tb2, tb1.
    rewrite !table_cell_set_ne by congruence. reflexivity.
Qed.

Lemma header_cell_effect tb calls i h :
  well_shaped tb rows cols -> 0 < rows -> i < cols -> text_ok h ->
  exists tb' calls',
    header_cell (length b) i h (at_table b tb rest calls w)
    = (Ok tt, at_table b tb' rest calls' w)
    /\ well_shaped tb' rows cols
    /\ tbl_style tb' = tbl_style tb
    /\ table_cell tb' 0 i = Some (cell_with_text (stored_text h))
    /\ (forall r c, (r, c) <> (0, i) -> table_cell tb' r c = table_cell tb r c).
Proof.
  intros Hshape Hr Hi Hok.
  destruct (row_inside tb rows cols 0 Hshape Hr) as [row Hrow].
  eexists _, _. split; [| split; [| split; [| split]]].
  - unfold header_cell, set_text_at. unfold bind at 1. rewrite row_cells_run, Hrow.
    rewrite (assign_last_run b rest w rows cols) by shape_side.
    case_decide; [| lia]. reflexivity.
  - shape_side.
  - reflexivity.
  - apply table_cell_set_eq. apply (table_cell_inside tb rows cols); assumption.
  - intros r c Hne. apply table_cell_set_ne. congruence.
Qed.

Lemma body_row_effect tb calls i x :
  well_shaped tb rows cols -> i + 1 < rows -> 4 <= cols -> row_ok x ->
  exists tb' calls',
    body_row (length b) i x (at_table b tb rest calls w)
    = (Ok tt, at_table b tb' rest calls' w)
    /\ well_shaped tb' rows cols
    /\ tbl_style tb' = tbl_style tb
    /\ (forall j s, row_texts x !! j = Some s ->
          table_cell tb' (i + 1) j = Some (cell_with_text (stored_text s)))
    /\ (forall r c, r <> i + 1 \/ 4 <= c -> table_cell tb' r c = table_cell tb r c).
Proof.
  intros Hshape Hi Hc Hok. destruct x as [[[x0 x1] x2] x3].
  destruct Hok as (Hok0 & Hok1 & Hok2 & Hok3).
  destruct (row_inside tb rows cols (i + 1) Hshape Hi) as [row Hrow].
  eexists _, _. split; [| split; [| split; [| split]]].
  - unfold body_row. unfold bind at 1. rewrite row_cells_run, Hrow.
    rewrite (assign_run b rest w rows cols) by shape_side.
    case_decide; [| lia].
    rewrite (assign_run b rest w rows cols) by shape_side.
    case_decide; [| lia].
    rewrite (assign_run b rest w rows cols) by shape_side.
    case_decide; [| lia].
    rewrite (assign_last_run b rest w rows cols) by shape_side.
    case_decide; [| lia]. reflexivity.
  - shape_side.
  - reflexivity.
  - intros j s Hj.
    assert (Hin : forall tb' c, well_shaped tb' rows cols -> c < 4 ->
                    is_Some (table_cell tb' (i + 1) c)).
    { intros tb' c Hs Hlt. apply (table_cell_inside tb' rows cols); [exact Hs | lia | lia]. }
    destruct j as [| [| [| [| j]]]]; simpl in Hj; try discriminate;
      injection Hj as <-.
    + rewrite !table_cell_set_ne by congruence.
      apply table_cell_set_eq, Hin; [shape_side | lia].
    + rewrite !table_cell_set_ne by congruence.
      apply table_cell_set_eq, Hin; [shape_side | lia].
    + rewrite !table_cell_set_ne by congruence.
      apply table_cell_set_eq, Hin; [shape_side | lia].
    + apply table_cell_set_eq, Hin; [shape_side | lia].
  - intros r c Hne. rewrite !table_cell_set_ne; [reflexivity | | | |];
      intros [= <- <-]; lia.
Qed.

End Effects.

(** ** Iterations inside and outside the table *)

Section Steps.

Variables (t : TableH) (rows cols : nat) (w : World).

Abbreviation I := (holds_table t rows cols w).

Lemma summary_step_inside i kv st :
  pair_ok kv -> I st -> i < rows /\ 1 < cols ->
  exists st', summary_row t i kv st = (Ok tt, st') /\ I st' /\ st_world st' = st_world st.
Proof.
  intros Hok (b & tb & rest & calls & -> & <- & Hshape) [Hi Hc].
  destruct (summary_row_effect b rest w rows cols tb calls i kv Hshape ltac:(lia) Hi Hok)
    as (tb' & calls' & Hrun & Hshape' & _).
  eexists. split; [exact Hrun |]. split; [| reflexivity].
  exists b, tb', rest, calls'. split; [reflexivity |]. split; [reflexivity | exact Hshape'].
Qed.

Lemma summary_step_outside i kv st :
  pair_ok kv -> I st -> ~ (i < rows /\ 1 < cols) ->
  exists st', summary_row t i kv st = (Raise IndexError, st') /\ st_world st' = st_world st.
Proof.
  intros [Hkey Hvalue] (b & tb & rest & calls & -> & <- & Hshape) Hout.
  unfold summary_row. unfold bind at 1. rewrite row_cells_run.
  destruct (decide (i < rows)) as [Hi | Hi].
  - destruct (row_inside tb rows cols i Hshape Hi) as [row ->].
    rewrite (assign_run b rest w rows cols) by shape_side.
    case_decide; [| eexists; split; reflexivity].
    rewrite (assign_run b rest w rows cols) by shape_side.
    case_decide; [lia | eexists; split; reflexivity].
  - rewrite (row_outside tb rows cols i Hshape) by lia.
    eexists; split; reflexivity.
Qed.

Lemma header_step_inside i h st :
  text_ok h -> I st -> 0 < rows /\ i < cols ->
  exists st', header_cell t i h st = (Ok tt, st') /\ I st' /\ st_world st' = st_world st.
Proof.
  intros Hok (b & tb & rest & calls & -> & <- & Hshape) [Hr Hi].
  destruct (header_cell_effect b rest w rows cols tb calls i h Hshape Hr Hi Hok)
    as (tb' & calls' & Hrun & Hshape' & _).
  eexists. split; [exact Hrun |]. split; [| reflexivity].
  exists b, tb', rest, calls'. split; [reflexivity |]. split; [reflexivity | exact Hshape'].
Qed.

Lemma header_step_outside i h st :
  text_ok h -> I st -> ~ (0 < rows /\ i < cols) ->
  exists st', header_cell t i h st = (Raise IndexError, st') /\ st_world st' = st_world st.
Proof.
  intros Hok (b & tb & rest & calls & -> & <- & Hshape) Hout.
  unfold header_cell, set_text_at. unfold bind at 1. rewrite row_cells_run.
  destruct (decide (0 < rows)) as [Hr | Hr].
  - destruct (row_inside tb rows cols 0 Hshape Hr) as [row ->].
    rewrite (assign_last_run b rest w rows cols) by shape_side.
    case_decide; [lia | eexists; split; reflexivity].
  - rewrite (row_outside tb rows cols 0 Hshape) by lia.
    eexists; split; reflexivity.
Qed.

Lemma body_step_inside i x st :
  row_ok x -> I st -> i + 1 < rows /\ 3 < cols ->
  exists st', body_row t i x st = (Ok tt, st') /\ I st' /\ st_world st' = st_world st.
Proof.
  intros Hok (b & tb & rest & calls & -> & <- & Hshape) [Hi Hc].
  destruct (body_row_effect b rest w rows cols tb calls i x Hshape Hi ltac:(lia) Hok)
    as (tb' & calls' & Hrun & Hshape' & _).
  eexists. split; [exact Hrun |]. split; [| reflexivity].
  exists b, tb', rest, calls'. split; [reflexivity |]. split; [reflexivity | exact Hshape'].
Qed.

Lemma body_step_outside i x st :
  row_ok x -> I st -> ~ (i + 1 < rows /\ 3 < cols) ->
  exists st', body_row t i x st = (Raise IndexError, st') /\ st_world st' = st_world st.
Proof.
  intros Hok (b & tb & rest & calls & -> & <- & Hshape) Hout.
  destruct x as [[[x0 x1] x2] x3]. destruct Hok as (Hok0 & Hok1 & Hok2 & Hok3).
  unfold body_row. unfold bind at 1. rewrite row_cells_run.
  destruct (decide (i + 1 < rows)) as [Hi | Hi].
  - destruct (row_inside tb rows cols (i + 1) Hshape Hi) as [row ->].
    rewrite (assign_run b rest w rows cols) by shape_side.
    case_decide; [| eexists; split; reflexivity].
    rewrite (assign_run b rest w rows cols) by shape_side.
    case_decide; [| eexists; split; reflexivity].
    rewrite (assign_run b rest w rows cols) by shape_side.
    case_decide; [| eexists; split; reflexivity].
    rewrite (assign_last_run b rest w rows cols) by shape_side.
    case_decide; [lia | eexists; split; reflexivity].
  - rewrite (row_outside tb rows cols (i + 1) Hshape) by lia.
    eexists; split; reflexivity.
Qed.

End Steps.

(** ** Loops *)

(** A loop over [enumerate(l)] whose body, on the elements satisfying [Q],
    succeeds on the indices satisfying [P], keeping the invariant [I] and
    the world, and raises [IndexError] on the others: it raises as soon as
    an index is outside. *)
Section BoundedLoop.

Context {A : Type} (f : nat -> A -> M unit) (I : State -> Prop).
Context (P : nat -> Prop) (Q : A -> Prop).
Context (P_dec : forall i, Decision (P i)).

Hypothesis step_inside : forall i x st, Q x -> I st -> P i ->
  exists st', f i x st = (Ok tt, st') /\ I st' /\ st_world st' = st_world st.
Hypothesis step_outside : forall i x st, Q x -> I st -> ~ P i ->
  exists st', f i x st = (Raise IndexError, st') /\ st_world st' = st_world st.

Lemma loop_outside (l : list A) : forall i st,
  Forall Q l -> I st -> ~ (forall k, k < length l -> P (i + k)) ->
  exists st', for_enumerate_from i l f st = (Raise IndexError, st')
    /\ st_world st' = st_world st.
Proof.
  induction l as [| x l IH]; intros i st HQ Hst Hnot.
  - exfalso. apply Hnot. intros k Hk. simpl in Hk. lia.
  - apply Forall_cons in HQ as [Hx HQ].
    destruct (decide (P i)) as [Hi | Hi].
    + destruct (step_inside i x st Hx Hst Hi) as (st1 & Hrun & Hst1 & Hw1).
      destruct (IH (S i) st1 HQ Hst1) as (st2 & Hloop & Hw2).
      { intros Hall. apply Hnot. intros k Hk. destruct k as [| k].
        - rewrite Nat.add_0_r. exact Hi.
        - replace (i + S k) with (S i + k) by lia. apply Hall. simpl in Hk. lia. }
      exists st2. split; [| congruence].
      simpl. unfold bind at 1. rewrite Hrun. exact Hloop.
    + destruct (step_outside i x st Hx Hst Hi) as (st1 & Hrun & Hw1).
      exists st1. split; [| exact Hw1].
      simpl. unfold bind at 1. rewrite Hrun. reflexivity.
Qed.

End BoundedLoop.

(** A loop over [enumerate(l)] whose body, on the elements satisfying [Q]
    and the indices satisfying [P], succeeds and takes the invariant of the
    elements done so far to the invariant with one element more. *)
Section InvariantLoop.

Context {A : Type} (f : nat -> A -> M unit).
Context (Inv : list A -> State -> Prop) (P : nat -> Prop) (Q : A -> Prop).

Hypothesis step : forall done x st,
  Q x -> P (length done) -> Inv done st ->
  exists st', f (length done) x st = (Ok tt, st') /\ Inv (done ++ [x]) st'.

Lemma loop_invariant_from (rest : list A) : forall done st,
  Forall Q rest ->
  Inv done st ->
  (forall k, k < length rest -> P (length done + k)) ->
  exists st',
    for_enumerate_from (length done) rest f st = (Ok tt, st')
    /\ Inv (done ++ rest) st'.
Proof.
  induction rest as [| x rest IH]; intros done st HQ Hinv Hall.
  - exists st. rewrite app_nil_r. split; [reflexivity | exact Hinv].
  - apply Forall_cons in HQ as [Hx HQ].
    assert (HP : P (length done)).
    { rewrite <- (Nat.add_0_r (length done)). apply Hall. simpl. lia. }
    destruct (step done x st Hx HP Hinv) as (st1 & Hrun & Hinv1).
    destruct (IH (done ++ [x]) st1 HQ Hinv1) as (st2 & Hloop & Hinv2).
    { intros k Hk. rewrite length_app. simpl.
      replace (length done + 1 + k) with (length done + S k) by lia.
      apply Hall. simpl. lia. }
    exists st2. split.
    + simpl. unfold bind at 1. rewrite Hrun.
      rewrite length_app in Hloop. simpl in Hloop.
      rewrite Nat.add_1_r in Hloop. exact Hloop.
    + rewrite <- app_assoc in Hinv2. exact Hinv2.
Qed.

Lemma loop_invariant (l : list A) (st : State) :
  Forall Q l ->
  Inv [] st ->
  (forall k, k < length l -> P k) ->
  exists st', for_enumerate l f st = (Ok tt, st') /\ Inv l st'.
Proof.
  intros HQ Hinv Hall. apply (loop_invariant_from l [] st HQ Hinv). exact Hall.
Qed.

End InvariantLoop.

(** A loop over a concatenation is the loop over the first list followed by
    the loop over the second, counting on. *)
Lemma for_enumerate_from_app {A} (f : nat -> A -> M unit) (l1 l2 : list A) :
  forall i st,
    for_enumerate_from i (l1 ++ l2) f st
    = bind (for_enumerate_from i l1 f)
        (fun _ => for_enumerate_from (i + length l1) l2 f) st.
Proof.
  induction l1 as [| x l1 IH]; intros i st.
  - simpl. unfold bind, ret. rewrite Nat.add_0_r. reflexivity.
  - simpl. unfold bind.
    destruct (f i x st) as [[[] | e] st1]; [| reflexivity].
    rewrite IH. unfold bind.
    replace (S i + length l1) with (i + S (length l1)) by lia.
    reflexivity.
Qed.

(** ** What the loops write *)

Section Contents.

Variables (b rest : list Block) (w : World) (rows cols : nat) (tb0 : Table).

Lemma summary_inv_step done kv st :
  2 <= cols -> pair_ok kv -> length done < rows ->
  summary_inv b rest w rows cols tb0 done st ->
  exists st',
    summary_row (length b) (length done) kv st = (Ok tt, st')
    /\ summary_inv b rest w rows cols tb0 (done ++ [kv]) st'.
Proof.
  intros Hcols Hok Hlt (tb & calls & -> & Hshape & Hstyle & Hdone & Hkeep).
  destruct (summary_row_effect b rest w rows cols tb calls (length done) kv
              Hshape Hcols Hlt Hok)
    as (tb' & calls' & Hrun & Hshape' & Hstyle' & Hc0 & Hc1 & Hother).
  exists (at_table b tb' rest calls' w). split; [exact Hrun |].
  exists tb', calls'. split; [reflexivity |]. split; [exact Hshape' |].
  split; [congruence |]. split.
  - intros k kv' Hk. destruct (decide (k < length done)) as [Hin | Hout].
    + rewrite lookup_app_l in Hk by exact Hin.
      rewrite !Hother by (intros [= ->]; lia). apply Hdone. exact Hk.
    + rewrite lookup_app_r in Hk by lia.
      destruct (k - length done) as [| n] eqn:Hn; simpl in Hk; [| discriminate].
      injection Hk as <-. replace k with (length done) by lia.
      split; assumption.
  - intros r c Hrc. rewrite length_app in Hrc. simpl in Hrc.
    rewrite Hother by (intros [= -> ->]; lia).
    apply Hkeep. lia.
Qed.

Lemma header_inv_step done h st :
  0 < rows -> text_ok h -> length done < cols ->
  header_inv b rest w rows cols tb0 done st ->
  exists st',
    header_cell (length b) (length done) h st = (Ok tt, st')
    /\ header_inv b rest w rows cols tb0 (done ++ [h]) st'.
Proof.
  intros Hrows Hok Hlt (tb & calls & -> & Hshape & Hstyle & Hdone & Hkeep).
  destruct (header_cell_effect b rest w rows cols tb calls (length done) h
              Hshape Hrows Hlt Hok)
    as (tb' & calls' & Hrun & Hshape' & Hstyle' & Hc & Hother).
  exists (at_table b tb' rest calls' w). split; [exact Hrun |].
  exists tb', calls'. split; [reflexivity |]. split; [exact Hshape' |].
  split; [congruence |]. split.
  - intros k h' Hk. destruct (decide (k < length done)) as [Hin | Hout].
    + rewrite lookup_app_l in Hk by exact Hin.
      rewrite Hother by (intros [= ->]; lia). apply Hdone. exact Hk.
    + rewrite lookup_app_r in Hk by lia.
      destruct (k - length done) as [| n] eqn:Hn; simpl in Hk; [| discriminate].
      injection Hk as <-. replace k with (length done) by lia. exact Hc.
  - intros r c Hrc. rewrite length_app in Hrc. simpl in Hrc.
    rewrite Hother by (intros [= -> ->]; lia).
    apply Hkeep. lia.
Qed.

Lemma body_inv_step done x st :
  4 <= cols -> row_ok x -> length done + 1 < rows ->
  body_inv b rest w rows cols tb0 done st ->
  exists st',
    body_row (length b) (length done) x st = (Ok tt, st')
    /\ body_inv b rest w rows cols tb0 (done ++ [x]) st'.
Proof.
  intros Hcols Hok Hlt (tb & calls & -> & Hshape & Hstyle & Hdone & Hkeep).
  destruct (body_row_effect b rest w rows cols tb calls (length done) x
              Hshape Hlt Hcols Hok)
    as (tb' & calls' & Hrun & Hshape' & Hstyle' & Hrow & Hother).
  exists (at_table b tb' rest calls' w). split; [exact Hrun |].
  exists tb', calls'. split; [reflexivity |]. split; [exact Hshape' |].
  split; [congruence |]. split.
  - intros k x' j s Hk Hj. destruct (decide (k < length done)) as [Hin | Hout].
    + rewrite lookup_app_l in Hk by exact Hin.
      rewrite Hother by lia. apply (Hdone k x' j s Hk Hj).
    + rewrite lookup_app_r in Hk by lia.
      destruct (k - length done) as [| n] eqn:Hn; simpl in Hk; [| discriminate].
      injection Hk as <-. replace k with (length done) by lia.
      apply Hrow. exact Hj.
  - intros r c Hrc. rewrite length_app in Hrc. simpl in Hrc.
    rewrite Hother by lia. apply Hkeep. lia.
Qed.

End Contents.

Lemma summary_loop_run (st : State) (t : TableH) (tb : Table)
    (rows cols : nat) (d : list (string * string)) :
  st_body st !! t = Some (BTable tb) ->
  well_shaped tb rows cols ->
  2 <= cols ->
  length d <= rows ->
  Forall pair_ok d ->
  exists st' tb',
    for_enumerate d (summary_row t) st = (Ok tt, st')
    /\ st_body st' = <[t := BTable tb']> (st_body st)
    /\ st_world st' = st_world st
    /\ well_shaped tb' rows cols
    /\ tbl_style tb' = tbl_style tb
    /\ (forall k kv, d !! k = Some kv ->
          table_cell tb' k 0 = Some (bold_text_cell (stored_text (fst kv)))
          /\ table_cell tb' k 1 = Some (cell_with_text (stored_text (snd kv))))
    /\ (forall r c, length d <= r \/ 2 <= c ->
          table_cell tb' r c = table_cell tb r c).
Proof.
  intros Ht Hshape Hcols Hfit Hok.
  destruct (state_split st t tb Ht) as (b & rest & <- & Hst & Hins).
  destruct (loop_invariant (summary_row (length b))
              (summary_inv b rest (st_world st) rows cols tb)
              (fun k => k < rows) pair_ok
              (fun done kv st0 => summary_inv_step b rest (st_world st) rows cols tb
                                    done kv st0 Hcols)
              d st Hok)
    as (st' & Hrun & tb' & calls' & -> & Hshape' & Hstyle & Hdone & Hkeep).
  - exists tb, (st_calls st). split; [exact Hst |]. split; [exact Hshape |].
    split; [reflexivity |]. split; [intros k kv Hk; discriminate |].
    intros r c _. reflexivity.
  - intros k Hk. lia.
  - exists (at_table b tb' rest calls' (st_world st)), tb'.
    split; [exact Hrun |]. split; [rewrite Hins; reflexivity |].
    split; [reflexivity |]. split; [exact Hshape' |].
    split; [exact Hstyle |]. split; [exact Hdone | exact Hkeep].
Qed.

Lemma header_loop_run (st : State) (t : TableH) (tb : Table)
    (rows cols : nat) (h : list string) :
  st_body st !! t = Some (BTable tb) ->
  well_shaped tb rows cols ->
  0 < rows ->
  length h <= cols ->
  Forall text_ok h ->
  exists st' tb',
    for_enumerate h (header_cell t) st = (Ok tt, st')
    /\ st_body st' = <[t := BTable tb']> (st_body st)
    /\ st_world st' = st_world st
    /\ well_shaped tb' rows cols
    /\ tbl_style tb' = tbl_style tb
    /\ (forall k x, h !! k = Some x ->
          table_cell tb' 0 k = Some (cell_with_text (stored_text x)))
    /\ (forall r c, 1 <= r \/ length h <= c ->
          table_cell tb' r c = table_cell tb r c).
Proof.
  intros Ht Hshape Hrows Hfit Hok.
  destruct (state_split st t tb Ht) as (b & rest & <- & Hst & Hins).
  destruct (loop_invariant (header_cell (length b))
              (header_inv b rest (st_world st) rows cols tb)
              (fun k => k < cols) text_ok
              (fun done x st0 => header_inv_step b rest (st_world st) rows cols tb
                                   done x st0 Hrows)
              h st Hok)
    as (st' & Hrun & tb' & calls' & -> & Hshape' & Hstyle & Hdone & Hkeep).
  - exists tb, (st_calls st). split; [exact Hst |]. split; [exact Hshape |].
    split; [reflexivity |]. split; [intros k x Hk; discriminate |].
    intros r c _. reflexivity.
  - intros k Hk. lia.
  - exists (at_table b tb' rest calls' (st_world st)), tb'.
    split; [exact Hrun |]. split; [rewrite Hins; reflexivity |].
    split; [reflexivity |]. split; [exact Hshape' |].
    split; [exact Hstyle |]. split; [exact Hdone | exact Hkeep].
Qed.

Lemma body_loop_run (st : State) (t : TableH) (tb : Table)
    (rows cols : nat) (d : list (string * string * string * string)) :
  st_body st !! t = Some (BTable tb) ->
  well_shaped tb rows cols ->
  4 <= cols ->
  length d + 1 <= rows ->
  Forall row_ok d ->
  exists st' tb',
    for_enumerate d (body_row t) st = (Ok tt, st')
    /\ st_body st' = <[t := BTable tb']> (st_body st)
    /\ st_world st' = st_world st
    /\ well_shaped tb' rows cols
    /\ tbl_style tb' = tbl_style tb
    /\ (forall k x j s, d !! k = Some x -> row_texts x !! j = Some s ->
          table_cell tb' (k + 1) j = Some (cell_with_text (stored_text s)))
    /\ (forall r c, r = 0 \/ length d + 1 <= r \/ 4 <= c ->
          table_cell tb' r c = table_cell tb r c).
Proof.
  intros Ht Hshape Hcols Hfit Hok.
  destruct (state_split st t tb Ht) as (b & rest & <- & Hst & Hins).
  destruct (loop_invariant (body_row (length b))
              (body_inv b rest (st_world st) rows cols tb)
              (fun k => k + 1 < rows) row_ok
              (fun done x st0 => body_inv_step b rest (st_world st) rows cols tb
                                   done x st0 Hcols)
              d st Hok)
    as (st' & Hrun & tb' & calls' & -> & Hshape' & Hstyle & Hdone & Hkeep).
  - exists tb, (st_calls st). split; [exact Hst |]. split; [exact Hshape |].
    split; [reflexivity |]. split; [intros k x j s Hk; discriminate |].
    intros r c _. reflexivity.
  - intros k Hk. lia.
  - exists (at_table b tb' rest calls' (st_world st)), tb'.
    split; [exact Hrun |]. split; [rewrite Hins; reflexivity |].
    split; [reflexivity |]. split; [exact Hshape' |].
    split; [exact Hstyle |]. split; [exact Hdone | exact Hkeep].
Qed.

(** ** Population loops and the declared bounds *)

(** What [within_bounds] says of each loop, index by index. *)
Lemma within_summary d rows cols :
  within_bounds (SummaryRows d) rows cols
  <-> forall k, k < length d -> 0 + k < rows /\ 1 < cols.
Proof.
  unfold within_bounds, addressed. rewrite Forall_forall. split.
  - intros H k Hk.
    assert (Hin : (k, 1) ∈ flat_map (fun i => [(i, 0); (i, 1)]) (seq 0 (length d))).
    { apply list_elem_of_In, in_flat_map. exists k. split; [apply in_seq; lia |].
      simpl. auto. }
    apply H in Hin. simpl in Hin. lia.
  - intros H [r c] Hin.
    apply list_elem_of_In, in_flat_map in Hin as (k & Hk & Hin).
    apply in_seq in Hk. specialize (H k ltac:(lia)).
    simpl in Hin. destruct Hin as [[= <- <-] | [[= <- <-] | []]]; simpl; lia.
Qed.

Lemma within_header h rows cols :
  within_bounds (HeaderRow h) rows cols
  <-> forall k, k < length h -> 0 < rows /\ 0 + k < cols.
Proof.
  unfold within_bounds, addressed. rewrite Forall_forall. split.
  - intros H k Hk.
    assert (Hin : (0, k) ∈ map (fun i => (0, i)) (seq 0 (length h))).
    { apply list_elem_of_In, in_map_iff. exists k. split; [reflexivity |].
      apply in_seq. lia. }
    apply H in Hin. simpl in Hin. lia.
  - intros H [r c] Hin.
    apply list_elem_of_In, in_map_iff in Hin as (k & [= <- <-] & Hk).
    apply in_seq in Hk. specialize (H k ltac:(lia)). simpl. lia.
Qed.

Lemma within_body d rows cols :
  within_bounds (BodyRows d) rows cols
  <-> forall k, k < length d -> 0 + k + 1 < rows /\ 3 < cols.
Proof.
  unfold within_bounds, addressed. rewrite Forall_forall. split.
  - intros H k Hk.
    assert (Hin : (k + 1, 3)
                  ∈ flat_map (fun i => [(i + 1, 0); (i + 1, 1); (i + 1, 2); (i + 1, 3)])
                      (seq 0 (length d))).
    { apply list_elem_of_In, in_flat_map. exists k. split; [apply in_seq; lia |].
      simpl. auto. }
    apply H in Hin. simpl in Hin. lia.
  - intros H [r c] Hin.
    apply list_elem_of_In, in_flat_map in Hin as (k & Hk & Hin).
    apply in_seq in Hk. specialize (H k ltac:(lia)).
    simpl in Hin.
    destruct Hin as [[= <- <-] | [[= <- <-] | [[= <- <-] | [[= <- <-] | []]]]];
      simpl; lia.
Qed.

(** The cells a loop does not address, loop by loop. *)
Lemma unaddressed_summary d r c :
  (r, c) ∉ addressed (SummaryRows d) -> length d <= r \/ 2 <= c.
Proof.
  intros Hnot. destruct (decide (r < length d)) as [Hr | Hr]; [| lia].
  destruct (decide (c < 2)) as [Hc | Hc]; [| lia].
  exfalso. apply Hnot. unfold addressed.
  apply list_elem_of_In, in_flat_map. exists r. split; [apply in_seq; lia |].
  destruct c as [| [| c]]; simpl; auto. lia.
Qed.

Lemma unaddressed_header h r c :
  (r, c) ∉ addressed (HeaderRow h) -> 1 <= r \/ length h <= c.
Proof.
  intros Hnot. destruct (decide (r = 0)) as [-> | Hr]; [| lia].
  destruct (decide (c < length h)) as [Hc | Hc]; [| lia].
  exfalso. apply Hnot. unfold addressed.
  apply list_elem_of_In, in_map_iff. exists c. split; [reflexivity | apply in_seq; lia].
Qed.

Lemma unaddressed_body d r c :
  (r, c) ∉ addressed (BodyRows d) -> r = 0 \/ length d + 1 <= r \/ 4 <= c.
Proof.
  intros Hnot. destruct (decide (r = 0)) as [-> | Hr]; [lia |].
  destruct (decide (r < length d + 1)) as [Hlt | Hlt]; [| lia].
  destruct (decide (c < 4)) as [Hc | Hc]; [| lia].
  exfalso. apply Hnot. unfold addressed.
  apply list_elem_of_In, in_flat_map. exists (r - 1). split; [apply in_seq; lia |].
  replace (r - 1 + 1) with r by lia.
  destruct c as [| [| [| [| c]]]]; simpl; auto 6. lia.
Qed.

(** ** Saving *)

Lemma save_run (path : string) (st : State) :
  save path st
  = let w := st_world st in
    let calls := st_calls st ++ [CSave path] in
    match outcome w (resolve (cwd w) path) with
    | Written =>
        (Ok tt, mkState (st_body st) calls
                  (mkWorld (cwd w) (<[resolve (cwd w) path := Complete (st_body st)]> (files w))
                     (outcome w)))
    | OpenFails => (Raise IOError, mkState (st_body st) calls w)
    | WriteFails =>
        (Raise IOError, mkState (st_body st) calls
                          (mkWorld (cwd w) (<[resolve (cwd w) path := Partial]> (files w))
                             (outcome w)))
    end.
Proof.
  unfold save, bind, log, get_body, get_world, put_world, raise.
  cbn [st_world st_body st_calls].
  destruct (outcome (st_world st) (resolve (cwd (st_world st)) path)); reflexivity.
Qed.

(** ** Mismatched table population *)

Lemma state_holds_table (st : State) (t : TableH) (tb : Table) (rows cols : nat) :
  st_body st !! t = Some (BTable tb) ->
  well_shaped tb rows cols ->
  holds_table t rows cols (st_world st) st.
Proof.
  intros Ht Hshape.
  exists (take t (st_body st)), tb, (drop (S t) (st_body st)), (st_calls st).
  split; [| split; [| exact Hshape]].
  - unfold at_table. rewrite (take_drop_middle _ _ _ Ht). destruct st; reflexivity.
  - apply length_take_le. apply lookup_lt_Some in Ht. lia.
Qed.

Lemma populate_inside (st : State) (t : TableH) (tb : Table) (rows cols : nat)
    (p : Population) :
  st_body st !! t = Some (BTable tb) ->
  well_shaped tb rows cols ->
  texts_ok p ->
  within_bounds p rows cols ->
  exists st' tb',
    populate t p st = (Ok tt, st')
    /\ st_world st' = st_world st
    /\ st_body st' = <[t := BTable tb']> (st_body st)
    /\ well_shaped tb' rows cols
    /\ (forall r c, (r, c) ∉ addressed p -> table_cell tb' r c = table_cell tb r c).
Proof.
  intros Ht Hshape Hok Hin.
  assert (Hnone : exists st' tb',
            (Ok tt, st) = (Ok tt, st')
            /\ st_world st' = st_world st
            /\ st_body st' = <[t := BTable tb']> (st_body st)
            /\ well_shaped tb' rows cols
            /\ (forall r c, table_cell tb' r c = table_cell tb r c)).
  { exists st, tb. split; [reflexivity |]. split; [reflexivity |].
    split; [symmetry; apply list_insert_id; exact Ht |].
    split; [exact Hshape | reflexivity]. }
  destruct p as [d | h | d]; unfold populate; simpl in Hok.
  - destruct d as [| kv d].
    { destruct Hnone as (st' & tb' & ? & ? & ? & ? & ?). exists st', tb'. auto. }
    pose proof (proj1 (within_summary _ _ _) Hin) as Hall. clear Hin. rename Hall into Hin.
    pose proof (Hin 0 ltac:(simpl; lia)) as [_ Hcols].
    pose proof (Hin (length d) ltac:(simpl; lia)) as [Hrows _].
    destruct (summary_loop_run st t tb rows cols (kv :: d) Ht Hshape
                ltac:(lia) ltac:(simpl; lia) Hok)
      as (st' & tb' & Hrun & Hbody & Hw & Hshape' & _ & _ & Hkeep).
    exists st', tb'. split; [exact Hrun |]. split; [exact Hw |].
    split; [exact Hbody |]. split; [exact Hshape' |].
    intros r c Hrc. apply Hkeep, unaddressed_summary. exact Hrc.
  - destruct h as [| x h].
    { destruct Hnone as (st' & tb' & ? & ? & ? & ? & ?). exists st', tb'. auto. }
    pose proof (proj1 (within_header _ _ _) Hin) as Hall. clear Hin. rename Hall into Hin.
    pose proof (Hin 0 ltac:(simpl; lia)) as [Hrows _].
    pose proof (Hin (length h) ltac:(simpl; lia)) as [_ Hcols].
    destruct (header_loop_run st t tb rows cols (x :: h) Ht Hshape
                Hrows ltac:(simpl; lia) Hok)
      as (st' & tb' & Hrun & Hbody & Hw & Hshape' & _ & _ & Hkeep).
    exists st', tb'. split; [exact Hrun |]. split; [exact Hw |].
    split; [exact Hbody |]. split; [exact Hshape' |].
    intros r c Hrc. apply Hkeep, unaddressed_header. exact Hrc.
  - destruct d as [| x d].
    { destruct Hnone as (st' & tb' & ? & ? & ? & ? & ?). exists st', tb'. auto. }
    pose proof (proj1 (within_body _ _ _) Hin) as Hall. clear Hin. rename Hall into Hin.
    pose proof (Hin 0 ltac:(simpl; lia)) as [_ Hcols].
    pose proof (Hin (length d) ltac:(simpl; lia)) as [Hrows _].
    destruct (body_loop_run st t tb rows cols (x :: d) Ht Hshape
                ltac:(lia) ltac:(simpl; lia) Hok)
      as (st' & tb' & Hrun & Hbody & Hw & Hshape' & _ & _ & Hkeep).
    exists st', tb'. split; [exact Hrun |]. split; [exact Hw |].
    split; [exact Hbody |]. split; [exact Hshape' |].
    intros r c Hrc. apply Hkeep, unaddressed_body. exact Hrc.
Qed.

Lemma populate_outside (st : State) (t : TableH) (rows cols : nat) (p : Population) :
  holds_table t rows cols (st_world st) st ->
  texts_ok p ->
  ~ within_bounds p rows cols ->
  exists st', populate t p st = (Raise IndexError, st') /\ st_world st' = st_world st.
Proof.
  intros Hst Hok Hout.
  destruct p as [d | h | d]; unfold populate, for_enumerate; simpl in Hok.
  - apply (loop_outside (summary_row t) _ (fun k => k < rows /\ 1 < cols) pair_ok _
             (summary_step_inside t rows cols (st_world st))
             (summary_step_outside t rows cols (st_world st)) d 0 st Hok Hst).
    intros H. apply Hout, within_summary. exact H.
  - apply (loop_outside (header_cell t) _ (fun k => 0 < rows /\ k < cols) text_ok _
             (header_step_inside t rows cols (st_world st))
             (header_step_outside t rows cols (st_world st)) h 0 st Hok Hst).
    intros H. apply Hout, within_header. exact H.
  - apply (loop_outside (body_row t) _ (fun k => k + 1 < rows /\ 3 < cols) row_ok _
             (body_step_inside t rows cols (st_world st))
             (body_step_outside t rows cols (st_world st)) d 0 st Hok Hst).
    intros H. apply Hout, within_body. exact H.
Qed.




(** ** The run of the script *)

Lemma main_written (w : World) :
  outcome w (target w) = Written ->
  main w = (Ok tt,
            mkState assembled_body (assembled_calls ++ [CSave output_name])
              (mkWorld (cwd w) (<[target w := Complete assembled_body]> (files w))
                 (outcome w))).
Proof.
  intros Hw. unfold target in *. rewrite main_run, save_run.
  cbn [st_world st_body st_calls]. rewrite Hw. reflexivity.
Qed.

Lemma main_open_fails (w : World) :
  outcome w (target w) = OpenFails ->
  main w = (Raise IOError,
            mkState assembled_body (assembled_calls ++ [CSave output_name]) w).
Proof.
  intros Hw. unfold target in *. rewrite main_run, save_run.
  cbn [st_world st_body st_calls]. rewrite Hw. reflexivity.
Qed.

Lemma main_write_fails (w : World) :
  outcome w (target w) = WriteFails ->
  main w = (Raise IOError,
            mkState assembled_body (assembled_calls ++ [CSave output_name])
              (mkWorld (cwd w) (<[target w := Partial]> (files w)) (outcome w))).
Proof.
  intros Hw. unfold target in *. rewrite main_run, save_run.
  cbn [st_world st_body st_calls]. rewrite Hw. reflexivity.
Qed.

(** The script succeeds exactly when the write goes through. *)
Lemma main_ok_written (w : World) (st' : State) :
  main w = (Ok tt, st') -> outcome w (target w) = Written.
Proof.
  intros Hrun. destruct (outcome w (target w)) eqn:Hw; [reflexivity | |].
  - rewrite (main_open_fails w Hw) in Hrun. discriminate.
  - rewrite (main_write_fails w Hw) in Hrun. discriminate.
Qed.

Lemma saves_once : saves (assembled_calls ++ [CSave output_name]) = [output_name].
Proof. vm_compute. reflexivity. Qed.

Lemma appended_in_call_order :
  map block_appended assembled_body
  = omap call_appends (assembled_calls ++ [CSave output_name]).
Proof. vm_compute. reflexivity. Qed.


(** C1 (amended): the script takes no outline; it renders the one outline
    compiled into it.  Whenever the script succeeds, the file it has written
    holds a document whose headings and blocks, read top to bottom, are
    exactly the headings and blocks of the compiled-in outline in the
    outline's order: nothing is reordered, dropped, merged or added.  They
    are also, one for one and in the same order, what the script's calls to
    add a heading, a paragraph or a table appended. *)
Theorem C1_order_preserved (w : World) (st' : State) :
  main w = (Ok tt, st') ->
  exists body,
    files (st_world st') !! target w = Some (Complete body)
    /\ read_document body = Some (outline_items sow_outline)
    /\ map block_appended body = omap call_appends (st_calls st').
Proof.
  intros Hrun. pose proof (main_ok_written w st' Hrun) as Hw.
  rewrite (main_written w Hw) in Hrun. injection Hrun as <-.
  exists assembled_body. split; [| split].
  - cbn [st_world files]. apply lookup_insert_eq.
  - exact read_assembled.
  - exact appended_in_call_order.
Qed.

Lemma C1_order_preserved_witness :
  exists body,
    files (st_world (snd (main w0))) !! target w0 = Some (Complete body)
    /\ read_document body = Some (outline_items sow_outline)
    /\ map block_appended body = omap call_appends (st_calls (snd (main w0))).
Proof.
  apply (C1_order_preserved w0 (snd (main w0))).
  vm_compute. reflexivity.
Defined.
(** C1 (as stated, refuted): the outline of the specification's scenario is
    not what the script renders; the script runs successfully, and the
    document it has written does not read as that outline. *)
Lemma C1_counterexample :
  fst (main w0) = Ok tt
  /\ exists body,
       files (world_after w0) !! target w0 = Some (Complete body)
       /\ read_document body <> Some (outline_items scenario_outline).
Proof.
  unfold world_after. rewrite (main_written w0 eq_refl).
  cbn [fst snd st_world files].
  split; [reflexivity |]. exists assembled_body.
  split; [apply lookup_insert_eq |].
  rewrite read_assembled. vm_compute. discriminate.
Qed.

(** C4: if the write of the output file does not go through, the script
    fails with IOError; it has asked for the save exactly once, as its last
    call; no file other than the target is touched, and the target is either
    left as it was or holds the remains of the failed write, never a newly
    written complete document. *)
Theorem C4_save_failure (w : World) :
  outcome w (target w) <> Written ->
  exists st',
    main w = (Raise IOError, st')
    /\ saves (st_calls st') = [output_name]
    /\ last (st_calls st') = Some (CSave output_name)
    /\ (forall p, p <> target w -> files (st_world st') !! p = files w !! p)
    /\ (files (st_world st') !! target w = files w !! target w
        \/ files (st_world st') !! target w = Some Partial).
Proof.
  intros Hw. destruct (outcome w (target w)) eqn:Hout; [congruence | |].
  - eexists. split; [apply (main_open_fails w Hout) |].
    cbn [st_calls st_world files].
    split; [exact saves_once |]. split; [apply last_snoc |].
    split; [reflexivity | left; reflexivity].
  - eexists. split; [apply (main_write_fails w Hout) |].
    cbn [st_calls st_world files].
    split; [exact saves_once |]. split; [apply last_snoc |].
    split.
    + intros p Hp. apply lookup_insert_ne. congruence.
    + right. apply lookup_insert_eq.
Qed.

Lemma C4_save_failure_witness :
  exists st',
    main w_disk_full = (Raise IOError, st')
    /\ saves (st_calls st') = [output_name]
    /\ last (st_calls st') = Some (CSave output_name)
    /\ (forall p, p <> target w_disk_full ->
          files (st_world st') !! p = files w_disk_full !! p)
    /\ (files (st_world st') !! target w_disk_full
          = files w_disk_full !! target w_disk_full
        \/ files (st_world st') !! target w_disk_full = Some Partial).
Proof.
  apply (C4_save_failure w_disk_full). simpl. discriminate.
Defined.

(** C5: two successful runs of the script, in any two worlds, write the same
    document, each to its own destination. *)
Theorem C5_two_runs (wa wb : World) (sta stb : State) :
  main wa = (Ok tt, sta) ->
  main wb = (Ok tt, stb) ->
  exists doc,
    files (st_world sta) !! target wa = Some (Complete doc)
    /\ files (st_world stb) !! target wb = Some (Complete doc).
Proof.
  intros Ha Hb.
  pose proof (main_ok_written wa sta Ha) as Hwa.
  pose proof (main_ok_written wb stb Hb) as Hwb.
  rewrite (main_written wa Hwa) in Ha. injection Ha as <-.
  rewrite (main_written wb Hwb) in Hb. injection Hb as <-.
  exists assembled_body. cbn [st_world files]. split; apply lookup_insert_eq.
Qed.

Lemma C5_two_runs_witness :
  target w0 <> target w1
  /\ exists doc,
       files (st_world (snd (main w0))) !! target w0 = Some (Complete doc)
       /\ files (st_world (snd (main w1))) !! target w1 = Some (Complete doc).
Proof.
  split; [vm_compute; discriminate |].
  apply (C5_two_runs w0 w1 (snd (main w0)) (snd (main w1))).
  - vm_compute. reflexivity.
  - vm_compute. reflexivity.
Defined.

(** C7 (amended): on success the script's only effect on the world is that
    the file named Edu_Explore_Statement_of_Work.docx in the current
    directory holds the document it built; every other path, the current
    directory and the behaviour of the file system are as they were.  The
    name is fixed in the script: the caller does not choose it. *)
Theorem C7_only_effect (w : World) (st' : State) :
  main w = (Ok tt, st') ->
  target w = cwd w +++ "/" +++ "Edu_Explore_Statement_of_Work.docx"
  /\ files (st_world st') !! target w = Some (Complete (st_body st'))
  /\ (forall p, p <> target w -> files (st_world st') !! p = files w !! p)
  /\ cwd (st_world st') = cwd w
  /\ outcome (st_world st') = outcome w.
Proof.
  intros Hrun. pose proof (main_ok_written w st' Hrun) as Hw.
  rewrite (main_written w Hw) in Hrun. injection Hrun as <-.
  cbn [st_world st_body files cwd outcome].
  split; [reflexivity |]. split; [apply lookup_insert_eq |].
  split; [| split; reflexivity].
  intros p Hp. apply lookup_insert_ne. congruence.
Qed.

Lemma C7_only_effect_witness :
  target w0 = cwd w0 +++ "/" +++ "Edu_Explore_Statement_of_Work.docx"
  /\ files (st_world (snd (main w0))) !! target w0
     = Some (Complete (st_body (snd (main w0))))
  /\ (forall p, p <> target w0 ->
        files (st_world (snd (main w0))) !! p = files w0 !! p)
  /\ cwd (st_world (snd (main w0))) = cwd w0
  /\ outcome (st_world (snd (main w0))) = outcome w0.
Proof.
  apply (C7_only_effect w0 (snd (main w0))).
  vm_compute. reflexivity.
Defined.

(** C7 (as stated, refuted): a caller who wants the document at out.docx
    runs the script successfully and finds no file there; the file is under
    the name fixed in the script. *)
Lemma C7_counterexample :
  fst (main w0) = Ok tt
  /\ files (world_after w0) !! resolve (cwd w0) "out.docx" = None
  /\ is_Some (files (world_after w0) !! "/work/Edu_Explore_Statement_of_Work.docx").
Proof.
  unfold world_after. rewrite (main_written w0 eq_refl).
  cbn [fst snd st_world files].
  split; [reflexivity |]. split.
  - vm_compute. reflexivity.
  - vm_compute. eexists. reflexivity.
Qed.
(** ** Tables: shape, text and style *)

Lemma styled_at_once_sound (calls : list Call) :
  styled_at_once calls = true ->
  forall pre post t rows cols,
    calls = pre ++ CAddTable t rows cols :: post ->
    exists post', post = CSetTableStyle t "Table Grid" :: post'.
Proof.
  intros Hall pre. revert calls Hall.
  induction pre as [| c pre IH]; intros calls Hall post t rows cols ->.
  - simpl in Hall. apply andb_prop in Hall as [Hnext _].
    destruct post as [| [] post]; try discriminate.
    apply andb_prop in Hnext as [Ht Hs].
    apply bool_decide_eq_true in Ht. apply bool_decide_eq_true in Hs.
    subst. eexists. reflexivity.
  - assert (Hrest : styled_at_once (pre ++ CAddTable t rows cols :: post) = true).
    { simpl in Hall. destruct c; try exact Hall.
      apply andb_prop in Hall as [_ Hall]. exact Hall. }
    exact (IH _ Hrest post t rows cols eq_refl).
Qed.

Lemma styling_checked :
  styled_at_once (assembled_calls ++ [CSave output_name]) = true.
Proof. vm_compute. reflexivity. Qed.

(** C2: for every table block of the compiled-in outline, declared with
    [rows] rows and [cols] columns, the script declares a table with these
    numbers, in the same position among the tables; the table it places in
    the document has exactly [rows] rows of exactly [cols] cells, and the
    texts its cells show are, row by row and cell by cell, the texts of the
    block: for the summary table the keys and values of [data], for the
    milestone table [m_headers] over the tuples of [m_data], for the budget
    table [b_headers] over the tuples of [b_data]. *)
Theorem C2_table_shape_and_text (w : World) (k rows cols : nat)
    (cells : list (list CellSpec)) :
  outline_tables sow_outline !! k = Some (rows, cols, cells) ->
  exists t tb,
    declared_tables (calls_made w) !! k = Some (t, rows, cols)
    /\ built w !! t = Some (BTable tb)
    /\ tables_of (built w) !! k = Some tb
    /\ well_shaped tb rows cols
    /\ table_texts tb = map (map cs_text) cells
    /\ (k = 1 -> table_texts tb = map (fun kv => [fst kv; snd kv]) data)
    /\ (k = 2 -> table_texts tb = m_headers :: map row_texts m_data)
    /\ (k = 7 -> table_texts tb = b_headers :: map row_texts b_data).
Proof.
  rewrite calls_made_eq, built_eq. intros Hk.
  do 8 (destruct k as [| k];
        [ vm_compute in Hk; injection Hk as <- <- <-;
          eexists _, _;
          split; [vm_compute; reflexivity |];
          split; [vm_compute; reflexivity |];
          split; [vm_compute; reflexivity |];
          split; [split; [reflexivity | repeat constructor] |];
          split; [vm_compute; reflexivity |];
          split; [intros [=]; try (vm_compute; reflexivity) |];
          split; intros [=]; try (vm_compute; reflexivity)
        | ]).
  vm_compute in Hk. discriminate.
Qed.

Lemma C2_table_shape_and_text_witness :
  exists t tb,
    declared_tables (calls_made w0) !! 1 = Some (t, 7, 2)
    /\ built w0 !! t = Some (BTable tb)
    /\ tables_of (built w0) !! 1 = Some tb
    /\ well_shaped tb 7 2
    /\ table_texts tb
       = map (map cs_text) (map (fun kv => [bold_cell (fst kv); cell (snd kv)]) data)
    /\ (1 = 1 -> table_texts tb = map (fun kv => [fst kv; snd kv]) data)
    /\ (1 = 2 -> table_texts tb = m_headers :: map row_texts m_data)
    /\ (1 = 7 -> table_texts tb = b_headers :: map row_texts b_data).
Proof.
  apply (C2_table_shape_and_text w0 1 7 2
           (map (fun kv => [bold_cell (fst kv); cell (snd kv)]) data)).
  reflexivity.
Defined.

(** C9: every table of the document the script builds has the style Table
    Grid, and in the sequence of calls the script makes every [add_table] is
    directly followed by the call that gives that table the style. *)
Theorem C9_tables_styled (w : World) :
  Forall (fun tb => tbl_style tb = Some "Table Grid") (tables_of (built w))
  /\ length (tables_of (built w)) = 8
  /\ forall pre post t rows cols,
       calls_made w = pre ++ CAddTable t rows cols :: post ->
       exists post', post = CSetTableStyle t "Table Grid" :: post'.
Proof.
  rewrite calls_made_eq, built_eq. split; [| split].
  - apply (bool_decide_unpack _). vm_compute. exact I.
  - vm_compute. reflexivity.
  - apply styled_at_once_sound. exact styling_checked.
Qed.

(** ** Style flags *)

(** C6: the runs of the document the script builds are, in reading order,
    the runs of the compiled-in outline, and each carries the bold flag
    exactly when the outline marks it bold and the italic flag exactly when
    the outline marks it italic. *)
Theorem C6_style_flags (w : World) :
  Forall2 renders (outline_runs sow_outline) (document_runs (built w)).
Proof. rewrite built_eq. apply (bool_decide_unpack _). vm_compute. exact I. Qed.

(** C10: the table under the heading Project summary has 7 rows; in each of
    them the cell of column 0 shows the key of the corresponding pair of
    [data] in a first run that is bold, and the cell of column 1 shows the
    value in runs none of which is bold. *)
Theorem C10_summary_keys_bold (w : World) :
  exists tb,
    table_under "Project summary" (built w) = Some tb
    /\ length (tbl_rows tb) = 7
    /\ forall i, i < 7 ->
         exists kv c0 c1 r0,
           data !! i = Some kv
           /\ table_cell tb i 0 = Some c0
           /\ cell_text c0 = fst kv
           /\ first_run c0 = Some r0
           /\ run_bold r0 = Some true
           /\ table_cell tb i 1 = Some c1
           /\ cell_text c1 = snd kv
           /\ Forall (fun r => run_bold r <> Some true) (cell_runs c1).
Proof.
  rewrite built_eq. eexists. split; [vm_compute; reflexivity |].
  split; [reflexivity |]. intros i Hi.
  do 7 (destruct i as [| i];
        [ eexists _, _, _, _;
          repeat (split; [reflexivity |]);
          repeat constructor; discriminate | ]).
  lia.
Qed.
(** ** The role/name table *)

(** C8 (amended): the role/name table of the script is the first table it
    declares, with 3 rows and 3 columns (line 23); the table placed in the
    document under the heading Project information has exactly 3 rows of
    exactly 3 cells, and the texts its cells show are, position by position,
    the nine texts that lines 28-42 assign. *)
Theorem C8_role_name_table (w : World) :
  exists t tb,
    declared_tables (calls_made w) !! 0 = Some (t, 3, 3)
    /\ built w !! t = Some (BTable tb)
    /\ table_under "Project information" (built w) = Some tb
    /\ well_shaped tb 3 3
    /\ table_texts tb = role_name_texts.
Proof.
  rewrite calls_made_eq, built_eq. eexists _, _.
  split; [vm_compute; reflexivity |].
  split; [vm_compute; reflexivity |].
  split; [vm_compute; reflexivity |].
  split; [split; [reflexivity | repeat constructor] |].
  vm_compute. reflexivity.
Qed.

(** C8 (as stated, refuted): the script declares no table of 2 rows and 2
    columns; its role/name table, under the heading Project information, has
    3 rows of 3 cells, and the texts it shows are not those of the
    specification's scenario. *)
Lemma C8_counterexample :
  Forall (fun d => (snd (fst d), snd d) <> (2, 2)) (declared_tables (calls_made w0))
  /\ exists tb,
       table_under "Project information" (built w0) = Some tb
       /\ well_shaped tb 3 3
       /\ ~ well_shaped tb 2 2
       /\ table_texts tb <> scenario_texts.
Proof.
  rewrite calls_made_eq, built_eq. split.
  - vm_compute. repeat constructor; discriminate.
  - eexists. split; [vm_compute; reflexivity |].
    split; [split; [reflexivity | repeat constructor] |].
    split; [intros [Hrows _]; vm_compute in Hrows; discriminate |].
    vm_compute. discriminate.
Qed.

(** * Further properties of the loops and of the run *)

(** ** The loops on any list *)

(** X1: the summary loop (lines 59-63), run on any table of [rows] by
    [cols] with at least two columns and at least as many rows as there are
    pairs, on pairs of texts the library accepts, succeeds; afterwards row
    [k] shows the key of the [k]-th pair in one bold run in column 0 and its
    value in one unmarked run in column 1, each as the library stores it (a
    carriage return reads back as a line feed); the rows below the last pair
    and the columns from the third on are as they were, and so are the style
    and shape of the table, every other block of the document and the file
    system. *)
Theorem X1_summary_loop_contents (st : State) (t : TableH) (tb : Table)
    (rows cols : nat) (d : list (string * string)) :
  st_body st !! t = Some (BTable tb) ->
  well_shaped tb rows cols ->
  2 <= cols ->
  length d <= rows ->
  Forall pair_ok d ->
  exists st' tb',
    for_enumerate d (summary_row t) st = (Ok tt, st')
    /\ st_body st' = <[t := BTable tb']> (st_body st)
    /\ st_world st' = st_world st
    /\ well_shaped tb' rows cols
    /\ tbl_style tb' = tbl_style tb
    /\ (forall k kv, d !! k = Some kv ->
          table_cell tb' k 0 = Some (bold_text_cell (stored_text (fst kv)))
          /\ table_cell tb' k 1 = Some (cell_with_text (stored_text (snd kv))))
    /\ (forall r c, length d <= r \/ 2 <= c ->
          table_cell tb' r c = table_cell tb r c).
Proof. exact (summary_loop_run st t tb rows cols d). Qed.

Lemma X1_summary_loop_contents_witness :
  exists st' tb',
    for_enumerate (take 2 data) (summary_row 0)
      (mkState [BTable (new_table 3 2)] [] w0) = (Ok tt, st')
    /\ st_body st' = <[0 := BTable tb']> [BTable (new_table 3 2)]
    /\ st_world st' = w0
    /\ well_shaped tb' 3 2
    /\ tbl_style tb' = None
    /\ (forall k kv, take 2 data !! k = Some kv ->
          table_cell tb' k 0 = Some (bold_text_cell (stored_text (fst kv)))
          /\ table_cell tb' k 1 = Some (cell_with_text (stored_text (snd kv))))
    /\ (forall r c, 2 <= r \/ 2 <= c ->
          table_cell tb' r c = table_cell (new_table 3 2) r c).
Proof.
  apply (X1_summary_loop_contents (mkState [BTable (new_table 3 2)] [] w0)
           0 (new_table 3 2) 3 2 (take 2 data) eq_refl (new_table_shape 3 2)).
  - lia.
  - simpl. lia.
  - repeat constructor.
Defined.

(** X2: a header loop (lines 87-88 and 165-166), run on any table with at
    least one row and at least as many columns as there are headers, on
    headers the library accepts, succeeds; afterwards cell [k] of row 0
    shows the [k]-th header, as the library stores it, in one unmarked run,
    and every other cell, the style and shape of the table, every other
    block of the document and the file system are as they were. *)
Theorem X2_header_loop_contents (st : State) (t : TableH) (tb : Table)
    (rows cols : nat) (h : list string) :
  st_body st !! t = Some (BTable tb) ->
  well_shaped tb rows cols ->
  0 < rows ->
  length h <= cols ->
  Forall text_ok h ->
  exists st' tb',
    for_enumerate h (header_cell t) st = (Ok tt, st')
    /\ st_body st' = <[t := BTable tb']> (st_body st)
    /\ st_world st' = st_world st
    /\ well_shaped tb' rows cols
    /\ tbl_style tb' = tbl_style tb
    /\ (forall k x, h !! k = Some x ->
          table_cell tb' 0 k = Some (cell_with_text (stored_text x)))
    /\ (forall r c, 1 <= r \/ length h <= c ->
          table_cell tb' r c = table_cell tb r c).
Proof. exact (header_loop_run st t tb rows cols h). Qed.

Lemma X2_header_loop_contents_witness :
  exists st' tb',
    for_enumerate m_headers (header_cell 0)
      (mkState [BTable (new_table 5 4)] [] w0) = (Ok tt, st')
    /\ st_body st' = <[0 := BTable tb']> [BTable (new_table 5 4)]
    /\ st_world st' = w0
    /\ well_shaped tb' 5 4
    /\ tbl_style tb' = None
    /\ (forall k x, m_headers !! k = Some x ->
          table_cell tb' 0 k = Some (cell_with_text (stored_text x)))
    /\ (forall r c, 1 <= r \/ 4 <= c ->
          table_cell tb' r c = table_cell (new_table 5 4) r c).
Proof.
  apply (X2_header_loop_contents (mkState [BTable (new_table 5 4)] [] w0)
           0 (new_table 5 4) 5 4 m_headers eq_refl (new_table_shape 5 4)).
  - lia.
  - simpl. lia.
  - repeat constructor.
Defined.

(** X3: a loop over the rows below the header (lines 97-102 and 175-180),
    run on any table with at least four columns and at least one row more
    than there are tuples, on tuples of texts the library accepts, succeeds;
    afterwards row [k + 1] shows the four texts of the [k]-th tuple in its
    first four cells, each as the library stores it in one unmarked run; row
    0, the rows below the last tuple and the columns from the fifth on are
    as they were, and so are the style and shape of the table, every other
    block of the document and the file system. *)
Theorem X3_body_loop_contents (st : State) (t : TableH) (tb : Table)
    (rows cols : nat) (d : list (string * string * string * string)) :
  st_body st !! t = Some (BTable tb) ->
  well_shaped tb rows cols ->
  4 <= cols ->
  length d + 1 <= rows ->
  Forall row_ok d ->
  exists st' tb',
    for_enumerate d (body_row t) st = (Ok tt, st')
    /\ st_body st' = <[t := BTable tb']> (st_body st)
    /\ st_world st' = st_world st
    /\ well_shaped tb' rows cols
    /\ tbl_style tb' = tbl_style tb
    /\ (forall k x j s, d !! k = Some x -> row_texts x !! j = Some s ->
          table_cell tb' (k + 1) j = Some (cell_with_text (stored_text s)))
    /\ (forall r c, r = 0 \/ length d + 1 <= r \/ 4 <= c ->
          table_cell tb' r c = table_cell tb r c).
Proof. exact (body_loop_run st t tb rows cols d). Qed.

Lemma X3_body_loop_contents_witness :
  exists st' tb',
    for_enumerate m_data (body_row 0)
      (mkState [BTable (new_table 5 4)] [] w0) = (Ok tt, st')
    /\ st_body st' = <[0 := BTable tb']> [BTable (new_table 5 4)]
    /\ st_world st' = w0
    /\ well_shaped tb' 5 4
    /\ tbl_style tb' = None
    /\ (forall k x j s, m_data !! k = Some x -> row_texts x !! j = Some s ->
          table_cell tb' (k + 1) j = Some (cell_with_text (stored_text s)))
    /\ (forall r c, r = 0 \/ 5 <= r \/ 4 <= c ->
          table_cell tb' r c = table_cell (new_table 5 4) r c).
Proof.
  apply (X3_body_loop_contents (mkState [BTable (new_table 5 4)] [] w0)
           0 (new_table 5 4) 5 4 m_data eq_refl (new_table_shape 5 4)).
  - lia.
  - simpl. lia.
  - repeat constructor.
Defined.

(** ** Whole tables *)

(** A table is determined by its shape and its cells. *)
Lemma rows_by_lookup (tb : Table) (rows cols : nat) (L : list (list Cell)) :
  well_shaped tb rows cols ->
  length L = rows ->
  Forall (fun row => length row = cols) L ->
  (forall i j row c, L !! i = Some row -> row !! j = Some c ->
     table_cell tb i j = Some c) ->
  tbl_rows tb = L.
Proof.
  intros [Hlen Hall] HL HLall Hcells.
  apply (list_eq_same_length _ _ rows); [exact HL | exact Hlen |].
  intros i x y Hi Hx Hy.
  apply (list_eq_same_length _ _ cols).
  - apply (Forall_lookup_1 _ _ _ _ HLall Hy).
  - apply (Forall_lookup_1 _ _ _ _ Hall Hx).
  - intros j a c Hj Ha Hc.
    pose proof (Hcells i j y c Hy Hc) as Htc.
    unfold table_cell in Htc. rewrite Hx in Htc. simpl in Htc. congruence.
Qed.

(** The declaration and the styling of a table, from any state. *)
Lemma declare_styled_run (st : State) (rows cols : nat) {B} (K : TableH -> M B) :
  bind (add_table rows cols)
    (fun table => bind (set_table_style table "Table Grid") (fun _ => K table)) st
  = K (length (st_body st))
      (at_table (st_body st) (mkTable (Some "Table Grid") (tbl_rows (new_table rows cols)))
         [] (st_calls st ++ [CAddTable (length (st_body st)) rows cols]
                         ++ [CSetTableStyle (length (st_body st)) "Table Grid"])
         (st_world st)).
Proof.
  destruct st as [b calls w]. unfold bind at 1. rewrite add_table_run.
  unfold bind at 1. rewrite set_table_style_run.
  cbn [st_body st_calls st_world]. rewrite <- app_assoc. reflexivity.
Qed.

Lemma styled_new_shape (rows cols : nat) :
  well_shaped (mkTable (Some "Table Grid") (tbl_rows (new_table rows cols))) rows cols.
Proof. exact (new_table_shape rows cols). Qed.

Lemma summary_table_block_run (st : State) (rows : nat) (d : list (string * string)) :
  length d <= rows ->
  Forall pair_ok d ->
  exists st',
    summary_table_block rows d st = (Ok tt, st')
    /\ st_body st'
       = st_body st
         ++ [BTable (mkTable (Some "Table Grid")
                       (map pair_cells d
                        ++ replicate (rows - length d) [empty_cell; empty_cell]))]
    /\ st_world st' = st_world st.
Proof.
  intros Hfit Hok. unfold summary_table_block. rewrite declare_styled_run.
  set (tb := mkTable (Some "Table Grid") (tbl_rows (new_table rows 2))).
  set (st1 := at_table _ tb _ _ _).
  destruct (summary_loop_run st1 (length (st_body st)) tb rows 2 d)
    as (st' & tb' & Hrun & Hbody & Hw & Hshape & Hstyle & Hdone & Hkeep).
  { apply lookup_at. }
  { apply styled_new_shape. }
  { lia. }
  { exact Hfit. }
  { exact Hok. }
  exists st'. split; [exact Hrun |]. split; [| exact Hw].
  rewrite Hbody. unfold st1, at_table. cbn [st_body]. rewrite insert_at.
  do 3 f_equal. destruct tb' as [style' rows']. simpl in Hstyle. subst style'.
  f_equal.
  apply (rows_by_lookup (mkTable (tbl_style tb) rows') rows 2); [exact Hshape | | |].
  - rewrite length_app, length_map, length_replicate. lia.
  - apply Forall_app. split.
    + apply Forall_forall. intros row Hrow.
      apply list_elem_of_In, in_map_iff in Hrow as (kv & <- & _). reflexivity.
    + apply Forall_forall. intros row Hrow.
      apply elem_of_replicate in Hrow as [-> _]. reflexivity.
  - intros i j row c Hrow Hc.
    destruct (decide (i < length d)) as [Hin | Hout].
    + rewrite lookup_app_l in Hrow by (rewrite length_map; exact Hin).
      rewrite list_lookup_fmap in Hrow.
      destruct (d !! i) as [kv |] eqn:Hkv; [| discriminate].
      injection Hrow as <-. destruct (Hdone i kv Hkv) as [H0 H1].
      destruct j as [| [| j]]; simpl in Hc; try discriminate;
        injection Hc as <-; assumption.
    + rewrite lookup_app_r in Hrow by (rewrite length_map; lia).
      apply lookup_replicate in Hrow as [-> Hi]. rewrite length_map in Hi.
      assert (Hj : j < 2) by (apply lookup_lt_Some in Hc; exact Hc).
      assert (c = empty_cell) as ->.
      { destruct j as [| [| j]]; simpl in Hc; [congruence | congruence | lia]. }
      rewrite Hkeep by lia.
      apply (new_table_cell rows 2); lia.
Qed.

Lemma grid_table_block_run (st : State) (rows : nat) (h : list string)
    (d : list (string * string * string * string)) :
  length h <= 4 ->
  length d + 1 <= rows ->
  Forall text_ok h ->
  Forall row_ok d ->
  exists st',
    grid_table_block rows h d st = (Ok tt, st')
    /\ st_body st'
       = st_body st
         ++ [BTable (mkTable (Some "Table Grid")
                       ((map stored_cell h ++ replicate (4 - length h) empty_cell)
                        :: map (fun x => map stored_cell (row_texts x)) d
                        ++ replicate (rows - (length d + 1)) (replicate 4 empty_cell)))]
    /\ st_world st' = st_world st.
Proof.
  intros Hh Hfit Hokh Hokd. unfold grid_table_block. rewrite declare_styled_run.
  set (tb := mkTable (Some "Table Grid") (tbl_rows (new_table rows 4))).
  set (b := st_body st). set (st1 := at_table b tb _ _ _).
  destruct (header_loop_run st1 (length b) tb rows 4 h)
    as (st2 & tb1 & Hrun1 & Hbody1 & Hw1 & Hshape1 & Hstyle1 & Hdone1 & Hkeep1).
  { apply lookup_at. }
  { apply styled_new_shape. }
  { lia. }
  { exact Hh. }
  { exact Hokh. }
  unfold st1, at_table in Hbody1. cbn [st_body] in Hbody1. rewrite insert_at in Hbody1.
  destruct (body_loop_run st2 (length b) tb1 rows 4 d)
    as (st3 & tb2 & Hrun2 & Hbody2 & Hw2 & Hshape2 & Hstyle2 & Hdone2 & Hkeep2).
  { rewrite Hbody1. apply lookup_at. }
  { exact Hshape1. }
  { lia. }
  { exact Hfit. }
  { exact Hokd. }
  rewrite Hbody1, insert_at in Hbody2.
  exists st3. split; [| split].
  - unfold bind at 1. rewrite Hrun1. exact Hrun2.
  - rewrite Hbody2. do 3 f_equal.
    destruct tb2 as [style2 rows2]. simpl in Hstyle2. rewrite Hstyle1 in Hstyle2.
    subst style2. f_equal.
    apply (rows_by_lookup (mkTable (tbl_style tb) rows2) rows 4); [exact Hshape2 | | |].
    + simpl. rewrite length_app, length_map, length_replicate. lia.
    + apply Forall_cons. split.
      { rewrite length_app, length_map, length_replicate. lia. }
      apply Forall_app. split.
      * apply Forall_forall. intros row Hrow.
        apply list_elem_of_In, in_map_iff in Hrow as ([[[x0 x1] x2] x3] & <- & _).
        reflexivity.
      * apply Forall_forall. intros row Hrow.
        apply elem_of_replicate in Hrow as [-> _]. apply length_replicate.
    + intros i j row c Hrow Hc.
      assert (Hj : j < 4).
      { apply lookup_lt_Some in Hc.
        destruct i as [| k]; simpl in Hrow.
        - injection Hrow as <-.
          rewrite length_app, length_map, length_replicate in Hc. lia.
        - destruct (decide (k < length d)) as [Hin | Hout].
          + rewrite lookup_app_l in Hrow by (rewrite length_map; exact Hin).
            rewrite list_lookup_fmap in Hrow.
            destruct (d !! k) as [[[[x0 x1] x2] x3] |]; [| discriminate].
            injection Hrow as <-. simpl in Hc. exact Hc.
          + rewrite lookup_app_r in Hrow by (rewrite length_map; lia).
            apply lookup_replicate in Hrow as [-> _].
            simpl in Hc. exact Hc. }
      destruct i as [| k]; simpl in Hrow.
      * injection Hrow as <-. rewrite Hkeep2 by lia.
        destruct (decide (j < length h)) as [Hin | Hout].
        -- rewrite lookup_app_l in Hc by (rewrite length_map; exact Hin).
           rewrite list_lookup_fmap in Hc.
           destruct (h !! j) as [x |] eqn:Hx; [| discriminate].
           injection Hc as <-. apply Hdone1. exact Hx.
        -- rewrite lookup_app_r in Hc by (rewrite length_map; lia).
           apply lookup_replicate in Hc as [-> _].
           rewrite Hkeep1 by lia. apply (new_table_cell rows 4); lia.
      * destruct (decide (k < length d)) as [Hin | Hout].
        -- rewrite lookup_app_l in Hrow by (rewrite length_map; exact Hin).
           rewrite list_lookup_fmap in Hrow.
           destruct (d !! k) as [x |] eqn:Hx; [| discriminate].
           injection Hrow as <-. rewrite list_lookup_fmap in Hc.
           destruct (row_texts x !! j) as [s |] eqn:Hs; [| discriminate].
           injection Hc as <-. rewrite <- Nat.add_1_r.
           apply (Hdone2 k x j s Hx Hs).
        -- rewrite lookup_app_r in Hrow by (rewrite length_map; lia).
           apply lookup_replicate in Hrow as [-> Hk]. rewrite length_map in Hk.
           assert (c = empty_cell) as ->.
           { destruct j as [| [| [| [| j]]]]; simpl in Hc; first [congruence | lia]. }
           rewrite Hkeep2 by lia. rewrite Hkeep1 by lia.
           apply (new_table_cell rows 4); lia.
  - rewrite Hw2, Hw1. reflexivity.
Qed.

(** X4: from any state, declaring a table of [rows] by 2, styling it and
    running the summary loop on a list of at most [rows] pairs of texts the
    library accepts (lines 46-63) succeeds and appends exactly one block to
    the document: the table in the style Table Grid whose rows are, in
    order, one row per pair with the key in a bold run and the value in an
    unmarked run, each as the library stores it, followed by the remaining
    rows of empty cells.  The blocks already in the document and the file
    system are as they were. *)
Theorem X4_summary_table_block (st : State) (rows : nat) (d : list (string * string)) :
  length d <= rows ->
  Forall pair_ok d ->
  exists st',
    summary_table_block rows d st = (Ok tt, st')
    /\ st_body st'
       = st_body st
         ++ [BTable (mkTable (Some "Table Grid")
                       (map pair_cells d
                        ++ replicate (rows - length d) [empty_cell; empty_cell]))]
    /\ st_world st' = st_world st.
Proof. exact (summary_table_block_run st rows d). Qed.

Lemma X4_summary_table_block_witness :
  exists st',
    summary_table_block 7 data (initial w0) = (Ok tt, st')
    /\ st_body st'
       = [] ++ [BTable (mkTable (Some "Table Grid")
                          (map pair_cells data
                           ++ replicate (7 - length data) [empty_cell; empty_cell]))]
    /\ st_world st' = w0.
Proof.
  apply (X4_summary_table_block (initial w0) 7 data).
  - simpl. lia.
  - repeat constructor.
Defined.

(** X5: from any state, declaring a table of [rows] by 4, styling it and
    running the header loop on at most four headers and the loop over the
    rows on at most [rows - 1] tuples, all of texts the library accepts
    (lines 83-102 and 162-180), succeeds and appends exactly one block to
    the document: the table in the style Table Grid whose first row shows
    the headers, whose next rows show the tuples in order, four texts each,
    every text as the library stores it, and whose remaining cells are
    empty; no run of it has a style flag.  The blocks already in the
    document and the file system are as they were. *)
Theorem X5_grid_table_block (st : State) (rows : nat) (h : list string)
    (d : list (string * string * string * string)) :
  length h <= 4 ->
  length d + 1 <= rows ->
  Forall text_ok h ->
  Forall row_ok d ->
  exists st',
    grid_table_block rows h d st = (Ok tt, st')
    /\ st_body st'
       = st_body st
         ++ [BTable (mkTable (Some "Table Grid")
                       ((map stored_cell h ++ replicate (4 - length h) empty_cell)
                        :: map (fun x => map stored_cell (row_texts x)) d
                        ++ replicate (rows - (length d + 1)) (replicate 4 empty_cell)))]
    /\ st_world st' = st_world st.
Proof. exact (grid_table_block_run st rows h d). Qed.

Lemma X5_grid_table_block_witness :
  exists st',
    grid_table_block 5 m_headers m_data (initial w0) = (Ok tt, st')
    /\ st_body st'
       = [] ++ [BTable (mkTable (Some "Table Grid")
                          ((map stored_cell m_headers
                            ++ replicate (4 - length m_headers) empty_cell)
                           :: map (fun x => map stored_cell (row_texts x)) m_data
                           ++ replicate (5 - (length m_data + 1))
                                (replicate 4 empty_cell)))]
    /\ st_world st' = w0.
Proof.
  apply (X5_grid_table_block (initial w0) 5 m_headers m_data).
  - simpl. lia.
  - simpl. lia.
  - repeat constructor.
  - repeat constructor.
Defined.

(** ** Bullet loops *)

Lemma bullet_run (st : State) (text : string) :
  text_ok text ->
  bullet text st
  = (Ok (length (st_body st)),
     mkState (st_body st ++ [bullet_paragraph text])
       (st_calls st ++ [CAddParagraph text (Some "List Bullet")]) (st_world st)).
Proof.
  intros Hok.
  unfold bullet, add_paragraph, append_paragraph, bullet_paragraph, bind, log,
    get_body, put_body, ret.
  cbn [st_body st_calls st_world].
  destruct (is_empty text); [reflexivity |].
  rewrite (set_text_ok text Hok). reflexivity.
Qed.

Lemma bullet_loop_run (l : list string) : forall st : State,
  Forall text_ok l ->
  exists st',
    for_each l bullet st = (Ok tt, st')
    /\ st_body st' = st_body st ++ map bullet_paragraph l
    /\ st_calls st'
       = st_calls st ++ map (fun text => CAddParagraph text (Some "List Bullet")) l
    /\ st_world st' = st_world st.
Proof.
  induction l as [| text l IH]; intros st Hok.
  - exists st. rewrite !app_nil_r. repeat split.
  - apply Forall_cons in Hok as [Htext Hok].
    destruct (IH (mkState (st_body st ++ [bullet_paragraph text])
                    (st_calls st ++ [CAddParagraph text (Some "List Bullet")])
                    (st_world st)) Hok)
      as (st' & Hrun & Hbody & Hcalls & Hw).
    exists st'. split; [| split; [| split]].
    + simpl. unfold bind at 1. rewrite (bullet_run st text Htext). exact Hrun.
    + rewrite Hbody. cbn [st_body]. rewrite <- app_assoc. reflexivity.
    + rewrite Hcalls. cbn [st_calls]. rewrite <- app_assoc. reflexivity.
    + exact Hw.
Qed.

(** X6: a bullet loop (lines 75-76, 193-194 and 206-207), from any state and
    on any list of texts the library accepts, succeeds; it appends one
    paragraph in the style List Bullet per text, in the order of the list,
    each holding its text, as the library stores it, in one unmarked run (no
    run when the text is empty); it makes one add-paragraph call per text
    and leaves the blocks already in the document and the file system as
    they were. *)
Theorem X6_bullet_loop (l : list string) (st : State) :
  Forall text_ok l ->
  exists st',
    for_each l bullet st = (Ok tt, st')
    /\ st_body st' = st_body st ++ map bullet_paragraph l
    /\ st_calls st'
       = st_calls st ++ map (fun text => CAddParagraph text (Some "List Bullet")) l
    /\ st_world st' = st_world st.
Proof. exact (bullet_loop_run l st). Qed.

Lemma X6_bullet_loop_witness :
  exists st',
    for_each risks bullet (initial w0) = (Ok tt, st')
    /\ st_body st' = [] ++ map bullet_paragraph risks
    /\ st_calls st'
       = [] ++ map (fun text => CAddParagraph text (Some "List Bullet")) risks
    /\ st_world st' = w0.
Proof.
  apply (X6_bullet_loop risks (initial w0)). repeat constructor.
Defined.

(** ** A loop that runs past the table *)

Lemma summary_row_past (b rest : list Block) (w : World) (rows cols : nat)
    tb calls i kv :
  well_shaped tb rows cols -> rows <= i ->
  summary_row (length b) i kv (at_table b tb rest calls w)
  = (Raise IndexError, at_table b tb rest calls w).
Proof.
  intros Hshape Hi. unfold summary_row.
  unfold bind at 1. rewrite row_cells_run.
  rewrite (row_outside _ _ _ _ Hshape Hi). reflexivity.
Qed.

Lemma summary_loop_overrun (st : State) (t : TableH) (tb : Table)
    (rows cols : nat) (d : list (string * string)) :
  st_body st !! t = Some (BTable tb) ->
  well_shaped tb rows cols ->
  2 <= cols ->
  rows < length d ->
  Forall pair_ok (take rows d) ->
  exists st' tb',
    for_enumerate d (summary_row t) st = (Raise IndexError, st')
    /\ st_body st' = <[t := BTable tb']> (st_body st)
    /\ st_world st' = st_world st
    /\ well_shaped tb' rows cols
    /\ (forall k kv, k < rows -> d !! k = Some kv ->
          table_cell tb' k 0 = Some (bold_text_cell (stored_text (fst kv)))
          /\ table_cell tb' k 1 = Some (cell_with_text (stored_text (snd kv)))).
Proof.
  intros Ht Hshape Hcols Hover Hok.
  destruct (summary_loop_run st t tb rows cols (take rows d) Ht Hshape Hcols)
    as (st1 & tb1 & Hrun & Hbody & Hw & Hshape1 & _ & Hdone & _).
  { rewrite length_take. lia. }
  { exact Hok. }
  assert (Hlen : length (take rows d) = rows) by (rewrite length_take; lia).
  destruct (drop rows d) as [| x post] eqn:Hdrop.
  { apply (f_equal length) in Hdrop. rewrite length_drop in Hdrop.
    simpl in Hdrop. lia. }
  assert (Ht1 : st_body st1 !! t = Some (BTable tb1)).
  { rewrite Hbody. apply list_lookup_insert_eq. apply lookup_lt_Some in Ht. exact Ht. }
  destruct (state_split st1 t tb1 Ht1) as (b & rest & <- & Hst1 & Hins).
  exists st1, tb1. split; [| split; [exact Hbody | split; [exact Hw | split]]].
  - unfold for_enumerate. rewrite <- (take_drop rows d), Hdrop.
    rewrite for_enumerate_from_app. unfold bind at 1.
    unfold for_enumerate in Hrun. rewrite Hrun.
    simpl. rewrite Hlen. unfold bind at 1.
    rewrite Hst1 at 1.
    rewrite (summary_row_past b rest _ rows cols tb1 _ rows x Hshape1 (le_n rows)).
    rewrite <- Hst1. reflexivity.
  - exact Hshape1.
  - intros k kv Hk Hkv. apply Hdone.
    rewrite lookup_take_lt by exact Hk. exact Hkv.
Qed.

(** X7: the summary loop (lines 59-63) run on a table with fewer rows than
    there are pairs fails with IndexError without undoing what it has done:
    when the pairs that have a row are of texts the library accepts, every
    row of the table holds the pair of its index, key bold and value
    unmarked, as after a successful loop; the other blocks of the document
    and the file system are as they were.  The texts of the pairs without a
    row are never looked at. *)
Theorem X7_overrun_keeps_rows (st : State) (t : TableH) (tb : Table)
    (rows cols : nat) (d : list (string * string)) :
  st_body st !! t = Some (BTable tb) ->
  well_shaped tb rows cols ->
  2 <= cols ->
  rows < length d ->
  Forall pair_ok (take rows d) ->
  exists st' tb',
    for_enumerate d (summary_row t) st = (Raise IndexError, st')
    /\ st_body st' = <[t := BTable tb']> (st_body st)
    /\ st_world st' = st_world st
    /\ well_shaped tb' rows cols
    /\ (forall k kv, k < rows -> d !! k = Some kv ->
          table_cell tb' k 0 = Some (bold_text_cell (stored_text (fst kv)))
          /\ table_cell tb' k 1 = Some (cell_with_text (stored_text (snd kv)))).
Proof. exact (summary_loop_overrun st t tb rows cols d). Qed.

Lemma X7_overrun_keeps_rows_witness :
  exists st' tb',
    for_enumerate data (summary_row 0)
      (mkState [BTable (new_table 3 2)] [] w0) = (Raise IndexError, st')
    /\ st_body st' = <[0 := BTable tb']> [BTable (new_table 3 2)]
    /\ st_world st' = w0
    /\ well_shaped tb' 3 2
    /\ (forall k kv, k < 3 -> data !! k = Some kv ->
          table_cell tb' k 0 = Some (bold_text_cell (stored_text (fst kv)))
          /\ table_cell tb' k 1 = Some (cell_with_text (stored_text (snd kv)))).
Proof.
  apply (X7_overrun_keeps_rows (mkState [BTable (new_table 3 2)] [] w0)
           0 (new_table 3 2) 3 2 data eq_refl (new_table_shape 3 2)).
  - lia.
  - simpl. lia.
  - repeat constructor.
Defined.

(** ** Setting a cell's first run bold *)

Lemma bold_first_run_text (c : Cell) (p : Dom.Paragraph) (r : Run) :
  cell_paragraphs c !! 0 = Some p ->
  par_runs p !! 0 = Some r ->
  cell_text (mkCell (<[0 := mkParagraph (par_style p) (par_alignment p)
                            (<[0 := mkRun (run_text r) (Some true) (run_italic r)]>
                               (par_runs p))]>
                       (cell_paragraphs c)))
  = cell_text c.
Proof.
  destruct c as [[| p0 ps]]; simpl; [discriminate |]. intros [= ->].
  destruct p as [style align [| r0 rs]]; simpl; [discriminate |]. intros [= ->].
  reflexivity.
Qed.

Lemma set_bold_at_run (st : State) (t : TableH) (tb : Table) (i j : nat) (c : Cell) :
  st_body st !! t = Some (BTable tb) ->
  table_cell tb i j = Some c ->
  (forall r, first_run c = Some r ->
     exists st' c',
       set_bold_at t i j st = (Ok tt, st')
       /\ st_body st' = <[t := BTable (set_table_cell tb i j c')]> (st_body st)
       /\ st_world st' = st_world st
       /\ cell_text c' = cell_text c
       /\ first_run c' = Some (mkRun (run_text r) (Some true) (run_italic r)))
  /\ (first_run c = None ->
     exists st',
       set_bold_at t i j st = (Raise IndexError, st')
       /\ st_body st' = st_body st
       /\ st_world st' = st_world st).
Proof.
  intros Ht Hc. destruct st as [body calls w]. cbn [st_body st_world] in *.
  destruct (state_split (mkState body calls w) t tb Ht) as (b & rest & <- & Hst & Hins).
  cbn [st_body st_calls st_world] in Hst, Hins.
  unfold at_table in Hst. injection Hst as ->.
  change (mkState (b ++ BTable tb :: rest) calls w) with (at_table b tb rest calls w).
  assert (Hrow : is_Some (tbl_rows tb !! i)).
  { unfold table_cell in Hc. destruct (tbl_rows tb !! i); [eauto | discriminate]. }
  destruct Hrow as [row Hrow].
  assert (Hrun : set_bold_at (length b) i j (at_table b tb rest calls w)
                 = set_cell_run_bold (length b, i, j) 0 0 true
                     (at_table b tb rest calls w)).
  { unfold set_bold_at. unfold bind at 1. rewrite row_cells_run, Hrow.
    unfold bind at 1. rewrite cell_at_run, Hc. reflexivity. }
  rewrite Hrun, set_cell_run_bold_run, Hc.
  unfold first_run. split.
  - intros r Hr.
    destruct (cell_paragraphs c !! 0) as [p |] eqn:Hp; simpl in Hr; [| discriminate].
    rewrite Hr. eexists _, _. split; [reflexivity |].
    split; [rewrite Hins; reflexivity |]. split; [reflexivity |].
    split; [apply bold_first_run_text; assumption |].
    simpl. rewrite list_lookup_insert_eq by (apply lookup_lt_Some in Hp; exact Hp).
    simpl. apply list_lookup_insert_eq. apply lookup_lt_Some in Hr. exact Hr.
  - intros Hnone.
    destruct (cell_paragraphs c !! 0) as [p |] eqn:Hp; simpl in Hnone.
    + rewrite Hnone. eexists. split; [reflexivity |]. split; reflexivity.
    + eexists. split; [reflexivity |]. split; reflexivity.
Qed.

(** X8: setting the first run of a cell bold, as lines 63 and 183-184 do,
    needs that run to exist.  On a cell that has a first run it succeeds,
    the run gets the bold flag and keeps its text and its italic flag, and
    the text of the cell is unchanged; on a cell without one, such as a cell
    of a freshly declared table that no text was assigned to, it fails with
    IndexError and leaves the document as it was.  The file system is
    untouched either way. *)
Theorem X8_bold_needs_a_run (st : State) (t : TableH) (tb : Table) (i j : nat)
    (c : Cell) :
  st_body st !! t = Some (BTable tb) ->
  table_cell tb i j = Some c ->
  (forall r, first_run c = Some r ->
     exists st' c',
       set_bold_at t i j st = (Ok tt, st')
       /\ st_body st' = <[t := BTable (set_table_cell tb i j c')]> (st_body st)
       /\ st_world st' = st_world st
       /\ cell_text c' = cell_text c
       /\ first_run c' = Some (mkRun (run_text r) (Some true) (run_italic r)))
  /\ (first_run c = None ->
     exists st',
       set_bold_at t i j st = (Raise IndexError, st')
       /\ st_body st' = st_body st
       /\ st_world st' = st_world st).
Proof. exact (set_bold_at_run st t tb i j c). Qed.

Lemma X8_bold_needs_a_run_witness :
  (exists st' c',
     set_bold_at 0 1 0
       (mkState [BTable (set_table_cell (new_table 2 2) 1 0 (cell_with_text "Total"))]
          [] w0) = (Ok tt, st')
     /\ st_body st'
        = <[0 := BTable (set_table_cell
                           (set_table_cell (new_table 2 2) 1 0 (cell_with_text "Total"))
                           1 0 c')]>
            [BTable (set_table_cell (new_table 2 2) 1 0 (cell_with_text "Total"))]
     /\ st_world st' = w0
     /\ cell_text c' = "Total"
     /\ first_run c' = Some (mkRun "Total" (Some true) None))
  /\ (exists st',
       set_bold_at 0 1 0 (mkState [BTable (new_table 2 2)] [] w0)
       = (Raise IndexError, st')
       /\ st_body st' = [BTable (new_table 2 2)]
       /\ st_world st' = w0).
Proof.
  split.
  - apply (proj1 (X8_bold_needs_a_run
                    (mkState [BTable (set_table_cell (new_table 2 2) 1 0
                                        (cell_with_text "Total"))] [] w0)
                    0 _ 1 0 (cell_with_text "Total") eq_refl eq_refl)
             (mkRun "Total" None None)).
    reflexivity.
  - apply (proj2 (X8_bold_needs_a_run (mkState [BTable (new_table 2 2)] [] w0)
                    0 (new_table 2 2) 1 0 empty_cell eq_refl eq_refl)).
    reflexivity.
Defined.

(** ** Running the script again *)

Lemma main_again (w : World) (st1 : State) :
  main w = (Ok tt, st1) ->
  exists st2,
    main (st_world st1) = (Ok tt, st2)
    /\ st_world st2 = st_world st1
    /\ st_body st2 = st_body st1.
Proof.
  intros Hrun. pose proof (main_ok_written w st1 Hrun) as Hw.
  rewrite (main_written w Hw) in Hrun. injection Hrun as <-.
  cbn [st_world st_body].
  eexists. split; [apply main_written; exact Hw |].
  cbn [st_world st_body]. split; [| reflexivity].
  unfold target. cbn [cwd files outcome].
  rewrite insert_insert_eq. reflexivity.
Qed.

(** X9: running the script again in the world a successful run has left
    succeeds and changes nothing: the file is overwritten with the same
    document and the world is exactly as it was after the first run
    (line 209 creates or overwrites the one file). *)
Theorem X9_second_run_changes_nothing (w : World) (st1 : State) :
  main w = (Ok tt, st1) ->
  exists st2,
    main (st_world st1) = (Ok tt, st2)
    /\ st_world st2 = st_world st1
    /\ st_body st2 = st_body st1.
Proof. exact (main_again w st1). Qed.

Lemma X9_second_run_changes_nothing_witness :
  exists st2,
    main (st_world (snd (main w0))) = (Ok tt, st2)
    /\ st_world st2 = st_world (snd (main w0))
    /\ st_body st2 = st_body (snd (main w0)).
Proof.
  apply (X9_second_run_changes_nothing w0 (snd (main w0))).
  vm_compute. reflexivity.
Defined.

(** ** The only failure *)

Lemma main_raises (w : World) (e : exn) (st' : State) :
  main w = (Raise e, st') ->
  e = IOError
  /\ outcome w (target w) <> Written
  /\ last (st_calls st') = Some (CSave output_name)
  /\ st_body st' = assembled_body
  /\ read_document (st_body st') = Some (outline_items sow_outline).
Proof.
  intros Hrun.
  destruct (outcome w (target w)) eqn:Hw.
  - rewrite (main_written w Hw) in Hrun. discriminate.
  - rewrite (main_open_fails w Hw) in Hrun. injection Hrun as <- <-.
    cbn [st_calls st_body]. split; [reflexivity |]. split; [discriminate |].
    split; [first [apply last_snoc | vm_compute; reflexivity] |].
    split; [reflexivity | exact read_assembled].
  - rewrite (main_write_fails w Hw) in Hrun. injection Hrun as <- <-.
    cbn [st_calls st_body]. split; [reflexivity |]. split; [discriminate |].
    split; [first [apply last_snoc | vm_compute; reflexivity] |].
    split; [reflexivity | exact read_assembled].
Qed.

(** X10: whatever the world, the only exception the script can end with is
    the IOError of the save of line 209: the construction of lines 6-207
    never raises (no heading level and no text is refused, no row, cell or
    run index is out of range), so that when the script fails the document
    in memory is the completely assembled one, which reads as the whole
    compiled-in outline, and the failed save is its last call. *)
Theorem X10_only_save_can_fail (w : World) (e : exn) (st' : State) :
  main w = (Raise e, st') ->
  e = IOError
  /\ outcome w (target w) <> Written
  /\ last (st_calls st') = Some (CSave output_name)
  /\ st_body st' = assembled_body
  /\ read_document (st_body st') = Some (outline_items sow_outline).
Proof. exact (main_raises w e st'). Qed.

Lemma X10_only_save_can_fail_witness :
  IOError = IOError
  /\ outcome w_disk_full (target w_disk_full) <> Written
  /\ last (st_calls (snd (main w_disk_full))) = Some (CSave output_name)
  /\ st_body (snd (main w_disk_full)) = assembled_body
  /\ read_document (st_body (snd (main w_disk_full)))
     = Some (outline_items sow_outline).
Proof.
  apply (X10_only_save_can_fail w_disk_full IOError (snd (main w_disk_full))).
  vm_compute. reflexivity.
Defined.

(** ** Single assignments *)

(** [cell.text = text] for any text: a refused text raises after the cell
    has been cleared and given its new run. *)
Lemma set_cell_text_any b tb rest calls w (i j : nat) (text : string) :
  set_cell_text (length b, i, j) text (at_table b tb rest calls w)
  = match table_cell tb i j with
    | Some _ =>
        (if snd (set_text text) then Ok tt else Raise ValueError,
         at_table b (set_table_cell tb i j (cell_with_text (fst (set_text text))))
           rest (calls ++ [CSetCellText (length b) i j text]) w)
    | None =>
        (Raise IndexError,
         at_table b tb rest (calls ++ [CSetCellText (length b) i j text]) w)
    end.
Proof.
  unfold set_cell_text, get_cell, put_cell, bind, log. cbn [fst snd].
  change (mkState (st_body (at_table b tb rest calls w)) ?c ?v)
    with (at_table b tb rest c w).
  rewrite get_table_run.
  destruct (table_cell tb i j); unfold ret, raise; [| reflexivity].
  rewrite get_table_run, put_table_run.
  destruct (snd (set_text text)); reflexivity.
Qed.

Lemma set_text_at_run (st : State) (t : TableH) (tb : Table) (rows cols i j : nat)
    (text : string) :
  st_body st !! t = Some (BTable tb) ->
  well_shaped tb rows cols ->
  (i < rows /\ j < cols -> text_ok text ->
     exists st',
       set_text_at t i j text st = (Ok tt, st')
       /\ st_body st'
          = <[t := BTable (set_table_cell tb i j (stored_cell text))]> (st_body st)
       /\ st_world st' = st_world st
       /\ table_cell (set_table_cell tb i j (stored_cell text)) i j
          = Some (stored_cell text)
       /\ forall r c, (r, c) <> (i, j) ->
            table_cell (set_table_cell tb i j (stored_cell text)) r c
            = table_cell tb r c)
  /\ (i < rows /\ j < cols -> snd (set_text text) = false ->
     exists st',
       set_text_at t i j text st = (Raise ValueError, st')
       /\ st_body st'
          = <[t := BTable (set_table_cell tb i j
                             (cell_with_text (fst (set_text text))))]> (st_body st)
       /\ st_world st' = st_world st)
  /\ (~ (i < rows /\ j < cols) ->
     set_text_at t i j text st = (Raise IndexError, st)).
Proof.
  intros Ht Hshape. destruct st as [body calls w]. cbn [st_body st_world] in *.
  destruct (state_split (mkState body calls w) t tb Ht) as (b & rest & <- & Hst & Hins).
  cbn [st_body st_calls st_world] in Hst, Hins.
  unfold at_table in Hst. injection Hst as ->.
  change (mkState (b ++ BTable tb :: rest) calls w) with (at_table b tb rest calls w).
  unfold set_text_at. split; [| split].
  - intros [Hi Hj] Hok. unfold bind at 1. rewrite row_cells_run.
    destruct (row_inside tb rows cols i Hshape Hi) as [row ->].
    rewrite (assign_last_run b rest w rows cols) by shape_side.
    case_decide; [| lia].
    eexists. split; [reflexivity |]. split; [rewrite Hins; reflexivity |].
    split; [reflexivity |]. split.
    + apply table_cell_set_eq. apply (table_cell_inside tb rows cols); assumption.
    + intros r c Hne. apply table_cell_set_ne. congruence.
  - intros [Hi Hj] Hbad. unfold bind at 1. rewrite row_cells_run.
    destruct (row_inside tb rows cols i Hshape Hi) as [row ->].
    destruct (table_cell_inside tb rows cols i j Hshape Hi Hj) as [c Hc].
    unfold bind at 1. rewrite cell_at_run, Hc.
    rewrite set_cell_text_any, Hc, Hbad.
    eexists. split; [reflexivity |]. split; [rewrite Hins; reflexivity | reflexivity].
  - intros Hout. unfold bind at 1. rewrite row_cells_run.
    destruct (decide (i < rows)) as [Hi | Hi].
    + destruct (row_inside tb rows cols i Hshape Hi) as [row ->].
      unfold bind at 1. rewrite cell_at_run.
      rewrite (table_cell_outside tb rows cols i j Hshape) by lia. reflexivity.
    + rewrite (row_outside tb rows cols i Hshape) by lia. reflexivity.
Qed.

(** X11: a single cell assignment [table.rows[i].cells[j].text = text], as
    in lines 112-117, on a table of [rows] by [cols].  Inside the table, a
    text the library accepts is stored: the cell holds exactly that text (a
    carriage return as a line feed) in one unmarked run, whatever it held
    before (an earlier text or bold flag is gone), and no other cell, no
    other block and nothing of the file system changes.  Inside the table, a
    text the library refuses raises ValueError after the cell has been
    cleared: the cell is left with one run holding what was stored before
    the refused piece.  Outside the table the assignment raises IndexError
    and the state is exactly as it was, whatever the text. *)
Theorem X11_cell_assignment (st : State) (t : TableH) (tb : Table)
    (rows cols i j : nat) (text : string) :
  st_body st !! t = Some (BTable tb) ->
  well_shaped tb rows cols ->
  (i < rows /\ j < cols -> text_ok text ->
     exists st',
       set_text_at t i j text st = (Ok tt, st')
       /\ st_body st'
          = <[t := BTable (set_table_cell tb i j (stored_cell text))]> (st_body st)
       /\ st_world st' = st_world st
       /\ table_cell (set_table_cell tb i j (stored_cell text)) i j
          = Some (stored_cell text)
       /\ forall r c, (r, c) <> (i, j) ->
            table_cell (set_table_cell tb i j (stored_cell text)) r c
            = table_cell tb r c)
  /\ (i < rows /\ j < cols -> snd (set_text text) = false ->
     exists st',
       set_text_at t i j text st = (Raise ValueError, st')
       /\ st_body st'
          = <[t := BTable (set_table_cell tb i j
                             (cell_with_text (fst (set_text text))))]> (st_body st)
       /\ st_world st' = st_world st)
  /\ (~ (i < rows /\ j < cols) ->
     set_text_at t i j text st = (Raise IndexError, st)).
Proof. exact (set_text_at_run st t tb rows cols i j text). Qed.

Lemma X11_cell_assignment_witness :
  (exists st',
     set_text_at 0 1 1 "Benita" (mkState [BTable (new_table 2 2)] [] w0) = (Ok tt, st')
     /\ st_body st'
        = <[0 := BTable (set_table_cell (new_table 2 2) 1 1 (stored_cell "Benita"))]>
            [BTable (new_table 2 2)]
     /\ st_world st' = w0
     /\ table_cell (set_table_cell (new_table 2 2) 1 1 (stored_cell "Benita")) 1 1
        = Some (stored_cell "Benita")
     /\ forall r c, (r, c) <> (1, 1) ->
          table_cell (set_table_cell (new_table 2 2) 1 1 (stored_cell "Benita")) r c
          = table_cell (new_table 2 2) r c)
  /\ (exists st',
       set_text_at 0 1 1 refused_text (mkState [BTable (new_table 2 2)] [] w0)
       = (Raise ValueError, st')
       /\ st_body st'
          = <[0 := BTable (set_table_cell (new_table 2 2) 1 1
                             (cell_with_text (fst (set_text refused_text))))]>
              [BTable (new_table 2 2)]
       /\ st_world st' = w0)
  /\ set_text_at 0 2 0 "Benita" (mkState [BTable (new_table 2 2)] [] w0)
     = (Raise IndexError, mkState [BTable (new_table 2 2)] [] w0).
Proof.
  split; [| split].
  - apply (proj1 (X11_cell_assignment (mkState [BTable (new_table 2 2)] [] w0)
                    0 (new_table 2 2) 2 2 1 1 "Benita" eq_refl (new_table_shape 2 2))).
    + lia.
    + reflexivity.
  - apply (proj1 (proj2 (X11_cell_assignment (mkState [BTable (new_table 2 2)] [] w0)
                           0 (new_table 2 2) 2 2 1 1 refused_text eq_refl
                           (new_table_shape 2 2)))).
    + lia.
    + reflexivity.
  - apply (proj2 (proj2 (X11_cell_assignment (mkState [BTable (new_table 2 2)] [] w0)
                           0 (new_table 2 2) 2 2 2 0 "Benita" eq_refl
                           (new_table_shape 2 2)))).
    lia.
Defined.

Lemma text_then_bold_run (st : State) (t : TableH) (tb : Table)
    (rows cols i j : nat) (text : string) :
  st_body st !! t = Some (BTable tb) ->
  well_shaped tb rows cols ->
  i < rows -> j < cols ->
  text_ok text ->
  exists st',
    bind (set_text_at t i j text) (fun _ => set_bold_at t i j) st = (Ok tt, st')
    /\ st_body st'
       = <[t := BTable (set_table_cell tb i j (bold_text_cell (stored_text text)))]>
           (st_body st)
    /\ st_world st' = st_world st.
Proof.
  intros Ht Hshape Hi Hj Hok. destruct st as [body calls w]. cbn [st_body st_world] in *.
  destruct (state_split (mkState body calls w) t tb Ht) as (b & rest & <- & Hst & Hins).
  cbn [st_body st_calls st_world] in Hst, Hins.
  unfold at_table in Hst. injection Hst as ->.
  change (mkState (b ++ BTable tb :: rest) calls w) with (at_table b tb rest calls w).
  set (tb1 := set_table_cell tb i j (cell_with_text (stored_text text))).
  assert (Hshape1 : well_shaped tb1 rows cols) by (apply set_table_cell_shape; exact Hshape).
  assert (Hcell : table_cell tb1 i j = Some (cell_with_text (stored_text text))).
  { apply table_cell_set_eq. apply (table_cell_inside tb rows cols); assumption. }
  destruct (row_inside tb rows cols i Hshape Hi) as [row Hrow].
  destruct (row_inside tb1 rows cols i Hshape1 Hi) as [row1 Hrow1].
  eexists. split; [| split].
  - unfold bind at 1. unfold set_text_at.
    unfold bind at 1. rewrite row_cells_run, Hrow.
    rewrite (assign_last_run b rest w rows cols) by shape_side.
    case_decide; [| lia]. fold tb1.
    unfold set_bold_at. unfold bind at 1. rewrite row_cells_run, Hrow1.
    unfold bind at 1. rewrite cell_at_run, Hcell.
    rewrite set_cell_run_bold_run, Hcell.
    cbn [cell_with_text cell_paragraphs par_runs par_style par_alignment
         run_text run_italic lookup list_lookup insert list_insert].
    reflexivity.
  - unfold at_table. cbn [st_body]. rewrite Hins.
    unfold tb1. rewrite set_table_cell_twice. reflexivity.
  - reflexivity.
Qed.

(** X12: assigning a text the library accepts to a cell and then setting its
    first run bold, in this order (lines 61-63, and lines 177-184 for the
    Total row), succeeds on every cell inside the table and leaves the cell
    holding exactly that text, as the library stores it, in one bold run; no
    other cell, no other block and nothing of the file system changes. *)
Theorem X12_text_then_bold (st : State) (t : TableH) (tb : Table)
    (rows cols i j : nat) (text : string) :
  st_body st !! t = Some (BTable tb) ->
  well_shaped tb rows cols ->
  i < rows -> j < cols ->
  text_ok text ->
  exists st',
    bind (set_text_at t i j text) (fun _ => set_bold_at t i j) st = (Ok tt, st')
    /\ st_body st'
       = <[t := BTable (set_table_cell tb i j (bold_text_cell (stored_text text)))]>
           (st_body st)
    /\ st_world st' = st_world st.
Proof. exact (text_then_bold_run st t tb rows cols i j text). Qed.

Lemma X12_text_then_bold_witness :
  exists st',
    bind (set_text_at 0 4 0 "Total") (fun _ => set_bold_at 0 4 0)
      (mkState [BTable (new_table 5 4)] [] w0) = (Ok tt, st')
    /\ st_body st'
       = <[0 := BTable (set_table_cell (new_table 5 4) 4 0
                          (bold_text_cell (stored_text "Total")))]>
           [BTable (new_table 5 4)]
    /\ st_world st' = w0.
Proof.
  apply (X12_text_then_bold (mkState [BTable (new_table 5 4)] [] w0)
           0 (new_table 5 4) 5 4 4 0 "Total" eq_refl (new_table_shape 5 4)).
  - lia.
  - lia.
  - reflexivity.
Defined.

(** ** Runs of a paragraph *)

Lemma add_run_run (st : State) (p : ParH) (x : Dom.Paragraph) (text : string) :
  st_body st !! p = Some (BParagraph x) ->
  text_ok text ->
  add_run p text st
  = (Ok (p, length (par_runs x)),
     mkState (<[p := BParagraph (mkParagraph (par_style x) (par_alignment x)
                                   (par_runs x ++ [mkRun (stored_text text) None None]))]>
                (st_body st))
       (st_calls st ++ [CAddRun p text]) (st_world st)).
Proof.
  intros Hp Hok. unfold add_run, get_paragraph, put_paragraph, bind, log, get_body,
    put_body, ret. unfold ParH in *. cbn [st_body st_calls st_world].
  rewrite Hp. rewrite (set_text_ok text Hok). reflexivity.
Qed.

Lemma set_run_bold_run (st : State) (p k : nat) (x : Dom.Paragraph) (r : Run)
    (v : bool) :
  st_body st !! p = Some (BParagraph x) ->
  par_runs x !! k = Some r ->
  set_run_bold (p, k) v st
  = (Ok tt,
     mkState (<[p := BParagraph (mkParagraph (par_style x) (par_alignment x)
                                   (alter (fun r => mkRun (run_text r) (Some v) (run_italic r))
                                      k (par_runs x)))]>
                (st_body st))
       (st_calls st ++ [CSetRunBold p k v]) (st_world st)).
Proof.
  intros Hp Hr. unfold set_run_bold, update_run, get_paragraph, put_paragraph, bind,
    log, get_body, put_body, ret. unfold ParH in *. simpl.
  rewrite Hp. simpl. rewrite Hr. reflexivity.
Qed.

Lemma labelled_value_run (st : State) (p : ParH) (x : Dom.Paragraph)
    (label value : string) :
  st_body st !! p = Some (BParagraph x) ->
  text_ok label ->
  text_ok value ->
  exists st',
    bind (add_run p label)
      (fun r => bind (set_run_bold r true) (fun _ => add_run p value)) st
    = (Ok (p, S (length (par_runs x))), st')
    /\ st_body st'
       = <[p := BParagraph (mkParagraph (par_style x) (par_alignment x)
                              (par_runs x ++ [mkRun (stored_text label) (Some true) None;
                                              mkRun (stored_text value) None None]))]>
           (st_body st)
    /\ st_world st' = st_world st.
Proof.
  intros Hp Hlabel Hvalue.
  assert (Hlt : p < length (st_body st)) by (eapply lookup_lt_Some; exact Hp).
  eexists. split; [| split].
  - unfold bind at 1. rewrite (add_run_run st p x label Hp Hlabel).
    unfold bind at 1.
    erewrite set_run_bold_run; cycle 1.
    { cbn [st_body]. apply list_lookup_insert_eq. exact Hlt. }
    { cbn [par_runs]. apply list_lookup_middle. reflexivity. }
    erewrite add_run_run; cycle 1.
    { cbn [st_body]. apply list_lookup_insert_eq. rewrite length_insert. exact Hlt. }
    { exact Hvalue. }
    cbn [par_runs par_style par_alignment st_body st_calls st_world].
    rewrite length_alter, length_app. simpl. rewrite Nat.add_1_r. reflexivity.
  - cbn [st_body]. rewrite !list_insert_insert_eq. do 3 f_equal.
    rewrite <- (Nat.add_0_r (length (par_runs x))) at 1.
    rewrite alter_app_r. simpl. rewrite <- app_assoc. reflexivity.
  - reflexivity.
Qed.

(** X13: adding a run, setting it bold and adding a second run to the same
    paragraph (lines 14-15, repeated in lines 16-19), with texts the library
    accepts, succeeds on every paragraph of the document and appends exactly
    two runs after the runs the paragraph had: the first text with the bold
    flag, the second with no flag, each as the library stores it.  The bold
    flag goes to the run just added only: the earlier runs, the style and
    alignment of the paragraph, the other blocks and the file system are as
    they were. *)
Theorem X13_labelled_value (st : State) (p : ParH) (x : Dom.Paragraph)
    (label value : string) :
  st_body st !! p = Some (BParagraph x) ->
  text_ok label ->
  text_ok value ->
  exists st',
    bind (add_run p label)
      (fun r => bind (set_run_bold r true) (fun _ => add_run p value)) st
    = (Ok (p, S (length (par_runs x))), st')
    /\ st_body st'
       = <[p := BParagraph (mkParagraph (par_style x) (par_alignment x)
                              (par_runs x ++ [mkRun (stored_text label) (Some true) None;
                                              mkRun (stored_text value) None None]))]>
           (st_body st)
    /\ st_world st' = st_world st.
Proof. exact (labelled_value_run st p x label value). Qed.

Lemma X13_labelled_value_witness :
  exists st',
    bind (add_run 0 "Date: ")
      (fun r => bind (set_run_bold r true) (fun _ => add_run 0 "January 14, 2026"))
      (mkState [BParagraph (mkParagraph None None [mkRun "Version: " (Some true) None])]
         [] w0)
    = (Ok (0, 2), st')
    /\ st_body st'
       = <[0 := BParagraph (mkParagraph None None
                              ([mkRun "Version: " (Some true) None]
                               ++ [mkRun (stored_text "Date: ") (Some true) None;
                                   mkRun (stored_text "January 14, 2026") None None]))]>
           [BParagraph (mkParagraph None None [mkRun "Version: " (Some true) None])]
    /\ st_world st' = w0.
Proof.
  apply (X13_labelled_value
           (mkState [BParagraph (mkParagraph None None [mkRun "Version: " (Some true) None])]
              [] w0)
           0 (mkParagraph None None [mkRun "Version: " (Some true) None])
           "Date: " "January 14, 2026").
  - reflexivity.
  - reflexivity.
  - reflexivity.
Defined.
